(** * EditTeamMember: capability table, option resolvers, form and
      submission state of the team-member editor

    A shallow embedding of the React component [EditTeamMember], the
    editor of a team member.  The component is a React function:
    its body is run on every render, its hooks keep state between renders
    and its callbacks are run on user and network events.  Here

    - the static table [ALLOWED_MEMBER_CONFIGS] is a function on the
      enumerated member types, and the JavaScript index expression
      [ALLOWED_MEMBER_CONFIGS[key]] is a function on arbitrary strings;
    - expressions that may raise a JavaScript exception live in the error
      monad [Exc];
    - hook state (the form of react-hook-form, the [useState] cell, the
      mutation of react-query) is a record [Session] that every callback
      transforms; calls to collaborators (toast, REST client, [onClose],
      query invalidation) are appended to the session's [log].

    Left out: the loading and error flags of the three catalog queries
    (and the toast a render shows for a failed catalog fetch), the
    tooltip state, translations and layout. *)

From Stdlib Require Import String Ascii List Bool ZArith.
From Stdlib Require Import Floats.PrimFloat.
Import ListNotations.
Open Scope string_scope.
Open Scope list_scope.

Set Implicit Arguments.
Set Warnings "-inexact-float".

(** ** JavaScript strings and exceptions *)

Module Js.

(** [s.startsWith(p)]. *)
Definition startsWith (s p : string) : bool := String.prefix p s.

(** [s.endsWith(p)]: the last [length p] characters of [s] are [p]. *)
Definition endsWith (s p : string) : bool :=
  Nat.leb (String.length p) (String.length s) &&
  String.eqb (String.substring (String.length s - String.length p)
                               (String.length p) s) p.

Inductive Error : Type :=
| TypeError (message : string).

(** The outcome of evaluating an expression. *)
Inductive Exc (A : Type) : Type :=
| Ok (a : A)
| Throw (e : Error).
Arguments Ok {A} a.
Arguments Throw {A} e.

Definition bind {A B} (c : Exc A) (k : A -> Exc B) : Exc B :=
  match c with
  | Ok a => k a
  | Throw e => Throw e
  end.

(** [Array.prototype.filter] with a callback that may throw: the
    callback is run on every element from left to right, and the first
    exception aborts the call. *)
Fixpoint filter {A} (p : A -> Exc bool) (l : list A) : Exc (list A) :=
  match l with
  | [] => Ok []
  | x :: rest =>
      bind (p x) (fun keep =>
      bind (filter p rest) (fun kept =>
      Ok (if keep then x :: kept else kept)))
  end.

(** The own property names of [Object.prototype]; every object literal
    inherits them, so indexing an object literal with one of these keys
    does not give [undefined]. *)
Definition objectPrototypeKeys : list string :=
  [ "constructor"; "__proto__"; "hasOwnProperty"; "isPrototypeOf";
    "propertyIsEnumerable"; "toLocaleString"; "toString"; "valueOf";
    "__defineGetter__"; "__defineSetter__";
    "__lookupGetter__"; "__lookupSetter__" ].

(** A template literal [`${x}`] over a value that is a string or
    [undefined]. *)
Definition template (x : option string) : string :=
  match x with
  | Some s => s
  | None => "undefined"
  end.

End Js.

Notation "x <- c ;; k" := (Js.bind c (fun x => k))
  (at level 61, c at next level, right associativity).

(** ** Data model *)

(** [type MemberTypes] *)
Inductive MemberTypes : Type :=
| root | leader | worker | freelancer | freelancer_root
| chatbot | ragbot | workflow.

Definition all_member_types : list MemberTypes :=
  [root; leader; worker; freelancer; freelancer_root; chatbot; ragbot; workflow].

(** The string literal of each member of the union type. *)
Definition tag (t : MemberTypes) : string :=
  match t with
  | root => "root"
  | leader => "leader"
  | worker => "worker"
  | freelancer => "freelancer"
  | freelancer_root => "freelancer_root"
  | chatbot => "chatbot"
  | ragbot => "ragbot"
  | workflow => "workflow"
  end.

Definition MemberTypes_eqb (a b : MemberTypes) : bool :=
  String.eqb (tag a) (tag b).

(** The member type with a given string literal, if any. *)
Definition of_tag (s : string) : option MemberTypes :=
  List.find (fun t => String.eqb (tag t) s) all_member_types.

(** [interface MemberConfigs] *)
Record MemberConfigs : Type := {
  selection : list MemberTypes;
  enableSkillTools : bool;
  enableUploadTools : bool;
  enableInterrupt : bool;
  enableHumanTool : bool
}.

(** [const ALLOWED_MEMBER_CONFIGS: Record<MemberTypes, MemberConfigs>] *)
Definition ALLOWED_MEMBER_CONFIGS (t : MemberTypes) : MemberConfigs :=
  match t with
  | root =>
      {| selection := [root];
         enableSkillTools := false; enableUploadTools := false;
         enableInterrupt := false; enableHumanTool := false |}
  | leader =>
      {| selection := [worker; leader];
         enableSkillTools := false; enableUploadTools := false;
         enableInterrupt := false; enableHumanTool := false |}
  | worker =>
      {| selection := [worker; leader];
         enableSkillTools := true; enableUploadTools := true;
         enableInterrupt := false; enableHumanTool := false |}
  | freelancer =>
      {| selection := [freelancer];
         enableSkillTools := true; enableUploadTools := true;
         enableInterrupt := true; enableHumanTool := true |}
  | freelancer_root =>
      {| selection := [freelancer_root];
         enableSkillTools := true; enableUploadTools := true;
         enableInterrupt := true; enableHumanTool := true |}
  | chatbot =>
      {| selection := [chatbot];
         enableSkillTools := true; enableUploadTools := true;
         enableInterrupt := true; enableHumanTool := true |}
  | ragbot =>
      {| selection := [ragbot];
         enableSkillTools := false; enableUploadTools := true;
         enableInterrupt := false; enableHumanTool := false |}
  | workflow =>
      {| selection := [ragbot];
         enableSkillTools := false; enableUploadTools := true;
         enableInterrupt := false; enableHumanTool := false |}
  end.

(** What the index expression [ALLOWED_MEMBER_CONFIGS[key]] can evaluate
    to: a profile of the table, a member inherited from
    [Object.prototype], or [undefined]. *)
Inductive Indexed : Type :=
| Profile (c : MemberConfigs)
| Inherited (key : string)
| Undefined.

(** [ALLOWED_MEMBER_CONFIGS[key]] for an arbitrary string [key].  Reading
    a property of an object never throws. *)
Definition index_configs (key : string) : Indexed :=
  match of_tag key with
  | Some t => Profile (ALLOWED_MEMBER_CONFIGS t)
  | None =>
      if List.existsb (String.eqb key) Js.objectPrototypeKeys
      then Inherited key
      else Undefined
  end.

(** [memberConfig.flag] read for its truth value.  On [undefined] the
    property read throws; a member inherited from [Object.prototype] has
    no such property, and [undefined] is falsy. *)
Definition read_flag (flag : MemberConfigs -> bool) (memberConfig : Indexed)
  : Js.Exc bool :=
  match memberConfig with
  | Profile c => Js.Ok (flag c)
  | Inherited _ => Js.Ok false
  | Undefined =>
      Js.Throw (Js.TypeError "Cannot read properties of undefined")
  end.

(** [memberConfig.selection.map(...)]: the options of the type select. *)
Definition read_selection (memberConfig : Indexed) : Js.Exc (list MemberTypes) :=
  match memberConfig with
  | Profile c => Js.Ok (selection c)
  | Inherited _ =>
      Js.Throw (Js.TypeError "Cannot read properties of undefined")
  | Undefined =>
      Js.Throw (Js.TypeError "Cannot read properties of undefined")
  end.

(** Modelled from the spec: the declarations of the REST client
    ([SkillOut], [UploadOut], [MemberOut], [MemberUpdate], [ApiError],
    the model entity) are not part of the sources; the records below have
    the fields the component reads and the fields section 3 and 6 of the
    specification list. *)
Record Skill : Type := {
  skill_id : Z;
  skill_name : string;
  skill_description : string
}.

Record Upload : Type := {
  upload_id : Z;
  upload_name : string
}.

Record ModelProvider : Type := { provider_name : string }.

Record Model : Type := {
  ai_model_name : string;
  model_provider : ModelProvider
}.

(** An entry of a multi-select: the entity spread into a fresh object
    ([{...x, label, value}]).  [decoration] is [None] for an entity that
    was not decorated (the members of a server response). *)
Record Decorated (A : Type) : Type := {
  entity : A;
  decoration : option (string * Z)
}.

Definition label {A} (o : Decorated A) : option string :=
  option_map fst (decoration o).
Definition value {A} (o : Decorated A) : option Z :=
  option_map snd (decoration o).

Definition skill_option (skill : Skill) : Decorated Skill :=
  {| entity := skill;
     decoration := Some (skill_name skill, skill_id skill) |}.

Definition upload_option (upload : Upload) : Decorated Upload :=
  {| entity := upload;
     decoration := Some (upload_name upload, upload_id upload) |}.

(** ** Option resolvers *)

(** [const skillOptions = skills ? skills.data.filter(...).map(...) : []]
    The filter callback is
    [skill.name !== "ask-human" || memberConfig.enableHumanTool]:
    [memberConfig] is only read for a skill named ask-human. *)
Definition skillOptions (skills : option (list Skill)) (memberConfig : Indexed)
  : Js.Exc (list (Decorated Skill)) :=
  match skills with
  | Some data =>
      kept <- Js.filter
                (fun skill =>
                   if negb (String.eqb (skill_name skill) "ask-human")
                   then Js.Ok true
                   else read_flag enableHumanTool memberConfig)
                data ;;
      Js.Ok (List.map skill_option kept)
  | None => Js.Ok []
  end.

(** [const uploadOptions = uploads ? uploads.data.map(...) : []] *)
Definition uploadOptions (uploads : option (list Upload))
  : list (Decorated Upload) :=
  match uploads with
  | Some data => List.map upload_option data
  | None => []
  end.

(** Modelled from the spec: [MemberOut] of the REST client is not part of
    the sources; a member as section 3 of the specification lists it and as
    the server returns it.  [model], [provider], [backstory],
    [temperature] and [interrupt] may be missing ([null]). *)
Module MemberOut.
Record t : Type := {
  id : Z;
  belongs_to : Z;
  type : string;
  name : string;
  role : string;
  backstory : option string;
  model : option string;
  provider : option string;
  temperature : option float;
  interrupt : option bool;
  skills : list Skill;
  uploads : list Upload
}.
End MemberOut.

(** The values of the form ([useForm<MemberUpdate>]): a working copy of
    the member whose text fields may be missing and whose skills and
    uploads are multi-select entries. *)
Module MemberUpdate.
Record t : Type := {
  id : Z;
  belongs_to : Z;
  type : string;
  name : option string;
  role : option string;
  backstory : option string;
  model : option string;
  provider : option string;
  temperature : option float;
  interrupt : option bool;
  skills : list (Decorated Skill);
  uploads : list (Decorated Upload)
}.

Definition set_model (v : option string) (d : t) : t :=
  {| id := id d; belongs_to := belongs_to d; type := type d;
     name := name d; role := role d; backstory := backstory d;
     model := v; provider := provider d;
     temperature := temperature d; interrupt := interrupt d;
     skills := skills d; uploads := uploads d |}.

Definition set_provider (v : option string) (d : t) : t :=
  {| id := id d; belongs_to := belongs_to d; type := type d;
     name := name d; role := role d; backstory := backstory d;
     model := model d; provider := v;
     temperature := temperature d; interrupt := interrupt d;
     skills := skills d; uploads := uploads d |}.
End MemberUpdate.

(** The [values] option of [useForm]:
    [{...member, skills: member.skills.map(...), uploads: member.uploads.map(...)}] *)
Definition form_values (member : MemberOut.t) : MemberUpdate.t :=
  {| MemberUpdate.id := MemberOut.id member;
     MemberUpdate.belongs_to := MemberOut.belongs_to member;
     MemberUpdate.type := MemberOut.type member;
     MemberUpdate.name := Some (MemberOut.name member);
     MemberUpdate.role := Some (MemberOut.role member);
     MemberUpdate.backstory := MemberOut.backstory member;
     MemberUpdate.model := MemberOut.model member;
     MemberUpdate.provider := MemberOut.provider member;
     MemberUpdate.temperature := MemberOut.temperature member;
     MemberUpdate.interrupt := MemberOut.interrupt member;
     MemberUpdate.skills := List.map skill_option (MemberOut.skills member);
     MemberUpdate.uploads := List.map upload_option (MemberOut.uploads member) |}.

(** A server response handed to the form as it is ([reset(data)]): the
    same object, its skills and uploads without label and value. *)
Definition as_form_values (data : MemberOut.t) : MemberUpdate.t :=
  {| MemberUpdate.id := MemberOut.id data;
     MemberUpdate.belongs_to := MemberOut.belongs_to data;
     MemberUpdate.type := MemberOut.type data;
     MemberUpdate.name := Some (MemberOut.name data);
     MemberUpdate.role := Some (MemberOut.role data);
     MemberUpdate.backstory := MemberOut.backstory data;
     MemberUpdate.model := MemberOut.model data;
     MemberUpdate.provider := MemberOut.provider data;
     MemberUpdate.temperature := MemberOut.temperature data;
     MemberUpdate.interrupt := MemberOut.interrupt data;
     MemberUpdate.skills :=
       List.map (fun s => {| entity := s; decoration := None |})
                (MemberOut.skills data);
     MemberUpdate.uploads :=
       List.map (fun u => {| entity := u; decoration := None |})
                (MemberOut.uploads data) |}.

(** [ApiError]: [err.body?.detail]. *)
Record ApiBody : Type := { detail : option string }.
Record ApiError : Type := { body : option ApiBody }.

Definition errDetail (err : ApiError) : option string :=
  match body err with
  | Some b => detail b
  | None => None
  end.

(** ** The form library

    react-hook-form is a dependency of the component, not part of it.
    The definitions of this module state the part of its documented
    behaviour the component relies on: built-in validation with
    [required] and [pattern], [handleSubmit], [setValue] and [reset]. *)
Module RHF.

(** A regular expression of the shape [/^[class]{min,max}$/]. *)
Record Regex : Type := {
  ranges : list (ascii * ascii);
  singles : list ascii;
  min : nat;
  max : nat
}.

Definition in_class (r : Regex) (c : ascii) : bool :=
  List.existsb
    (fun lohi => Nat.leb (nat_of_ascii (fst lohi)) (nat_of_ascii c) &&
                 Nat.leb (nat_of_ascii c) (nat_of_ascii (snd lohi)))
    (ranges r)
  || List.existsb (Ascii.eqb c) (singles r).

(** [regex.test(s)].  Without the [m] flag [$] is the end of input. *)
Definition test (r : Regex) (s : string) : bool :=
  Nat.leb (min r) (String.length s) &&
  Nat.leb (String.length s) (max r) &&
  List.forallb (in_class r) (list_ascii_of_string s).

Record Pattern : Type := { regex : Regex; message : string }.

(** The options of [register] and the [rules] of [Controller] the
    component uses.  [required] holds the message; [required: true] is
    the empty message. *)
Record Rules : Type := {
  required : option string;
  pattern : option Pattern
}.

Definition no_rules : Rules := {| required := None; pattern := None |}.

(** The value of a field as validation sees it. *)
Inductive FieldValue : Type :=
| Nullish
| Text (s : string)
| Number (x : float)
| Boolean (b : bool)
| Items (n : nat).

(** [isEmpty]: the empty string and the empty array. *)
Definition isEmpty (v : FieldValue) : bool :=
  match v with
  | Text s => String.eqb s ""
  | Items n => Nat.eqb n 0
  | _ => false
  end.

Definition isNullish (v : FieldValue) : bool :=
  match v with
  | Nullish => true
  | _ => false
  end.

(** [validateField] with [criteriaMode: "all"]: the messages of the
    rules the value breaks.  [required] fails on an empty or missing
    value and on [false]; a number, also 0, is present.  [pattern] is
    only tested on a string that is not empty. *)
Definition validateField (rules : Rules) (v : FieldValue) : list string :=
  (match required rules with
   | Some msg =>
       if isEmpty v || isNullish v ||
          match v with Boolean b => negb b | _ => false end
       then [msg] else []
   | None => []
   end) ++
  (match pattern rules, v with
   | Some p, Text s =>
       if negb (isEmpty v) && negb (test (regex p) s)
       then [message p] else []
   | _, _ => []
   end).

(** The value of the field called [field] in the form values. *)
Definition get (values : MemberUpdate.t) (field : string) : FieldValue :=
  let text (o : option string) :=
    match o with Some s => Text s | None => Nullish end in
  if String.eqb field "type" then Text (MemberUpdate.type values)
  else if String.eqb field "name" then text (MemberUpdate.name values)
  else if String.eqb field "role" then text (MemberUpdate.role values)
  else if String.eqb field "backstory" then text (MemberUpdate.backstory values)
  else if String.eqb field "model" then text (MemberUpdate.model values)
  else if String.eqb field "provider" then text (MemberUpdate.provider values)
  else if String.eqb field "temperature" then
    match MemberUpdate.temperature values with
    | Some x => Number x
    | None => Nullish
    end
  else if String.eqb field "interrupt" then
    match MemberUpdate.interrupt values with
    | Some b => Boolean b
    | None => Nullish
    end
  else if String.eqb field "skills" then
    Items (List.length (MemberUpdate.skills values))
  else if String.eqb field "uploads" then
    Items (List.length (MemberUpdate.uploads values))
  else Nullish.

(** [formState.errors]: per field, the messages of its broken rules. *)
Definition FieldErrors : Type := list (string * list string).

(** Validation of all registered fields. *)
Fixpoint validate (fields : list (string * Rules)) (values : MemberUpdate.t)
  : FieldErrors :=
  match fields with
  | [] => []
  | (field, rules) :: rest =>
      match validateField rules (get values field) with
      | [] => validate rest values
      | msgs => (field, msgs) :: validate rest values
      end
  end.

(** The state [useForm] keeps.  [isSubmitting] is true while
    [handleSubmit] runs. *)
Record FormState : Type := {
  values : MemberUpdate.t;
  defaultValues : MemberUpdate.t;
  isDirty : bool;
  isSubmitting : bool;
  errors : FieldErrors
}.

(** [useForm({values})] at the first render. *)
Definition useForm (initial : MemberUpdate.t) : FormState :=
  {| values := initial; defaultValues := initial;
     isDirty := false; isSubmitting := false; errors := [] |}.

(** [formState.isValid]: no registered field breaks a rule. *)
Definition isValid (fields : list (string * Rules)) (fs : FormState) : bool :=
  match validate fields (values fs) with
  | [] => true
  | _ => false
  end.

(** [watch("type")] *)
Definition watch_type (fs : FormState) : string :=
  MemberUpdate.type (values fs).

(** [setValue(field, v)] without options: the value is stored and the
    dirty state is left alone. *)
Definition setValue (update : MemberUpdate.t -> MemberUpdate.t)
           (fs : FormState) : FormState :=
  {| values := update (values fs); defaultValues := defaultValues fs;
     isDirty := isDirty fs; isSubmitting := isSubmitting fs;
     errors := errors fs |}.

(** [reset(data)]: [data] becomes the values and the default values,
    dirty state, submitting state and errors are cleared.  [reset()] goes
    back to the default values. *)
Definition reset (data : option MemberUpdate.t) (fs : FormState) : FormState :=
  match data with
  | Some d =>
      {| values := d; defaultValues := d; isDirty := false;
         isSubmitting := false; errors := [] |}
  | None =>
      {| values := defaultValues fs; defaultValues := defaultValues fs;
         isDirty := false; isSubmitting := false; errors := [] |}
  end.

(** What [handleSubmit] does to the form state when it starts: the form
    is submitting. *)
Definition beginSubmit (fs : FormState) : FormState :=
  {| values := values fs; defaultValues := defaultValues fs;
     isDirty := isDirty fs; isSubmitting := true; errors := errors fs |}.

(** What [handleSubmit] does to the form state when validation and the
    handler are through: the errors found are stored and the form is no
    longer submitting. *)
Definition endSubmit (errs : FieldErrors) (fs : FormState) : FormState :=
  {| values := values fs; defaultValues := defaultValues fs;
     isDirty := isDirty fs; isSubmitting := false; errors := errs |}.

End RHF.

(** ** The component *)

(** [interface EditTeamMemberProps] ([onClose] and [ref] are callbacks
    and handles of the host; a call of [onClose] is an [Event]). *)
Record Props : Type := {
  member : MemberOut.t;
  teamId : Z;
  isOpen : bool
}.

(** The data of [useSkillsQuery], [useUploadsQuery], [useModelQuery]:
    [undefined] until the fetch has succeeded. *)
Record Queries : Type := {
  skills : option (list Skill);
  uploads : option (list Upload);
  models : option (list Model)
}.

(** Calls to the collaborators of the component, in the order made. *)
Inductive Event : Type :=
| showToast (title description status : string)
| updateMember (id teamId : Z) (requestBody : MemberUpdate.t)
| onClose
| invalidateQueries (teamId : Z).

(** [mutation.status] of react-query. *)
Inductive MutationStatus : Type :=
| idle | loading | success | error.

Record Session : Type := {
  form : RHF.FormState;
  selectedModelProvider : string;
  mutation : MutationStatus;
  log : list Event
}.

Definition with_form (f : RHF.FormState -> RHF.FormState) (s : Session) : Session :=
  {| form := f (form s); selectedModelProvider := selectedModelProvider s;
     mutation := mutation s; log := log s |}.

Definition setSelectedModelProvider (p : string) (s : Session) : Session :=
  {| form := form s; selectedModelProvider := p;
     mutation := mutation s; log := log s |}.

Definition with_mutation (m : MutationStatus) (s : Session) : Session :=
  {| form := form s; selectedModelProvider := selectedModelProvider s;
     mutation := m; log := log s |}.

Definition emit (e : Event) (s : Session) : Session :=
  {| form := form s; selectedModelProvider := selectedModelProvider s;
     mutation := mutation s; log := log s ++ [e] |}.

(** The hooks at the first render: [useState<string>("openai")],
    [useForm({values})], an idle mutation, nothing called yet. *)
Definition mount (p : Props) : Session :=
  {| form := RHF.useForm (form_values (member p));
     selectedModelProvider := "openai";
     mutation := idle;
     log := [] |}.

(** [models?.data.find((model) => model.ai_model_name === modelName)] *)
Definition find_model (models : option (list Model)) (modelName : string)
  : option Model :=
  match models with
  | Some data =>
      List.find (fun model => String.eqb (ai_model_name model) modelName) data
  | None => None
  end.

(** [const onModelSelect = (modelName: string) => ...] *)
Definition onModelSelect (q : Queries) (modelName : string) (s : Session)
  : Session :=
  match find_model (models q) modelName with
  | Some selectedModel =>
      let s1 := with_form
                  (RHF.setValue (MemberUpdate.set_model (Some modelName))) s in
      let s2 := with_form
                  (RHF.setValue
                     (MemberUpdate.set_provider
                        (Some (provider_name (model_provider selectedModel)))))
                  s1 in
      setSelectedModelProvider (provider_name (model_provider selectedModel)) s2
  | None => s
  end.

(** The body of [useEffect(() => ..., [member.model, models])].
    [if (member.model)]: a missing or empty model name is falsy. *)
Definition effect_member_model (p : Props) (q : Queries) (s : Session)
  : Session :=
  match MemberOut.model (member p) with
  | Some modelName =>
      if String.eqb modelName "" then s
      else
        match find_model (models q) modelName with
        | Some selectedModelData =>
            setSelectedModelProvider
              (provider_name (model_provider selectedModelData)) s
        | None => s
        end
  | None => s
  end.

(** [mutation.mutate(data)] up to the request: [updateMember] calls the
    REST client once; react-query's [useMutation] does not retry unless
    asked to, and the component passes no [retry] option. *)
Definition mutate (p : Props) (data : MemberUpdate.t) (s : Session) : Session :=
  with_mutation loading
    (emit (updateMember (MemberOut.id (member p)) (teamId p) data) s).

(** [const onSubmit: SubmitHandler<TeamUpdate> = async (data) => ...] *)
Definition onSubmit (p : Props) (data : MemberUpdate.t) (s : Session) : Session :=
  mutate p data s.

(** [handleSubmit(onSubmit)] of react-hook-form on the fields registered
    by the rendered form: the form is submitting, all fields are
    validated; the handler is called with the values when no rule is
    broken, otherwise the handler is not called; then the errors are
    stored and the form is no longer submitting.  [onSubmit] does not
    wait for the mutation, so the form has stopped submitting when the
    request is under way. *)
Definition handleSubmit (fields : list (string * RHF.Rules))
           (onValid : MemberUpdate.t -> Session -> Session) (s : Session)
  : Session :=
  let started := with_form RHF.beginSubmit s in
  match RHF.validate fields (RHF.values (form started)) with
  | [] =>
      with_form (RHF.endSubmit [])
                (onValid (RHF.values (form started)) started)
  | errs => with_form (RHF.endSubmit errs) started
  end.

(** [onSuccess: (data) => ...] *)
Definition onSuccess (data : MemberOut.t) (s : Session) : Session :=
  let s1 := emit (showToast "Success!" "Team updated successfully." "success") s in
  let s2 := with_form (RHF.reset (Some (as_form_values data))) s1 in
  emit onClose s2.

(** [onError: (err: ApiError) => ...] *)
Definition onError (err : ApiError) (s : Session) : Session :=
  emit (showToast "Something went wrong." (Js.template (errDetail err)) "error") s.

(** [onSettled: () => ...] *)
Definition onSettled (p : Props) (s : Session) : Session :=
  emit (invalidateQueries (teamId p)) s.

(** The mutation settles with the answer of the REST client: the member
    the server stored, or an error. *)
Definition settle (p : Props) (answer : MemberOut.t + ApiError) (s : Session)
  : Session :=
  match answer with
  | inl data => onSettled p (onSuccess data (with_mutation success s))
  | inr err => onSettled p (onError err (with_mutation error s))
  end.

(** [const onCancel = () => ...] *)
Definition onCancel (s : Session) : Session :=
  emit onClose (with_form (RHF.reset None) s).

(** [const memberConfig = ALLOWED_MEMBER_CONFIGS[watch("type") as MemberTypes]]
    The cast is erased at run time: the table is indexed with whatever
    string the form holds. *)
Definition memberConfig (watched : string) : Js.Exc Indexed :=
  Js.Ok (index_configs watched).

(** *** What a render returns

    Of the element tree the model keeps what decides behaviour: the form
    controls with the field they register, their rules, whether they are
    disabled and their options, and the buttons.  Layout, labels and
    error texts are left out. *)
Inductive Widget : Type :=
| Select (options : list MemberTypes)
| Input
| Textarea
| ModelSelect (catalog : option (list Model)) (current : option string)
              (selectedProvider : string)
| SkillSelect (options : list (Decorated Skill))
| UploadSelect (options : list (Decorated Upload))
| Checkbox
| Slider (position : float).

Record FormControl : Type := {
  field : string;
  rules : RHF.Rules;
  isDisabled : bool;
  widget : Widget
}.

(** The Save button has [isLoading = isSubmitting || mutation.isLoading]
    and [isDisabled = !isDirty || !isValid]. *)
Inductive Button : Type :=
| Save (isLoading : bool) (disabled : bool)
| Cancel.

Inductive View : Type :=
| InlinePanel (controls : list FormControl)
| ModalDialog (open : bool) (controls : list FormControl) (footer : list Button).

Definition controls_of (v : View) : list FormControl :=
  match v with
  | InlinePanel cs => cs
  | ModalDialog _ cs _ => cs
  end.

Definition footer_of (v : View) : list Button :=
  match v with
  | InlinePanel _ => []
  | ModalDialog _ _ bs => bs
  end.

Definition is_inline (v : View) : bool :=
  match v with
  | InlinePanel _ => true
  | ModalDialog _ _ _ => false
  end.

(** The fields a rendered form registers, with their rules. *)
Definition registered (cs : list FormControl) : list (string * RHF.Rules) :=
  List.map (fun c => (field c, rules c)) cs.

(** [{flag && (<control/>)}] *)
Definition when (flag : bool) (c : FormControl) : list FormControl :=
  if flag then [c] else [].

(** [value ?? 0] *)
Definition or_zero (x : option float) : float :=
  match x with
  | Some v => v
  | None => 0%float
  end.

(** The first [return]: the form of a member whose type ends in bot. *)
Definition inline_panel (p : Props) (q : Queries) (s : Session)
           (memberConfig : Indexed) (skillOptions : list (Decorated Skill))
           (uploadOptions : list (Decorated Upload)) : Js.Exc View :=
  let name :=
    {| field := "name";
       rules := {| RHF.required := Some "Name is required.";
                   RHF.pattern :=
                     Some {| RHF.regex :=
                               {| RHF.ranges := [("a", "z"); ("A", "Z"); ("0", "9")]%char;
                                  RHF.singles := ["_"; "-"]%char;
                                  RHF.min := 1; RHF.max := 64 |};
                             RHF.message :=
                               "Name must follow pattern: ^[a-zA-Z0-9_-]{1,64}$" |} |};
       isDisabled := false; widget := Input |} in
  let role :=
    {| field := "role";
       rules := {| RHF.required := Some "Role is required.";
                   RHF.pattern := None |};
       isDisabled := false; widget := Textarea |} in
  let backstory :=
    {| field := "backstory"; rules := RHF.no_rules;
       isDisabled := false; widget := Textarea |} in
  let model :=
    {| field := "model"; rules := RHF.no_rules; isDisabled := false;
       widget := ModelSelect (models q) (MemberOut.model (member p))
                             (selectedModelProvider s) |} in
  skillTools <- read_flag enableSkillTools memberConfig ;;
  uploadTools <- read_flag enableUploadTools memberConfig ;;
  interrupt <- read_flag enableInterrupt memberConfig ;;
  Js.Ok (InlinePanel
    ([name; role; backstory; model]
     ++ when skillTools
          {| field := "skills"; rules := RHF.no_rules; isDisabled := false;
             widget := SkillSelect skillOptions |}
     ++ when uploadTools
          {| field := "uploads"; rules := RHF.no_rules; isDisabled := false;
             widget := UploadSelect uploadOptions |}
     ++ when interrupt
          {| field := "interrupt"; rules := RHF.no_rules; isDisabled := false;
             widget := Checkbox |}
     ++ [ {| field := "temperature";
             rules := {| RHF.required := Some ""; RHF.pattern := None |};
             isDisabled := false;
             widget := Slider (or_zero (MemberUpdate.temperature
                                          (RHF.values (form s)))) |} ])).

(** The second [return]: the modal of every other member. *)
Definition modal_dialog (p : Props) (q : Queries) (s : Session)
           (memberConfig : Indexed) (skillOptions : list (Decorated Skill))
           (uploadOptions : list (Decorated Upload)) : Js.Exc View :=
  let type_disabled :=
    String.eqb (MemberOut.type (member p)) "root"
    || Js.startsWith (MemberOut.type (member p)) "freelancer"
    || Js.endsWith (MemberOut.type (member p)) "bot" in
  options <- read_selection memberConfig ;;
  let type :=
    {| field := "type"; rules := RHF.no_rules;
       isDisabled := type_disabled; widget := Select options |} in
  let name :=
    {| field := "name";
       rules := {| RHF.required := Some "Name is required.";
                   RHF.pattern :=
                     Some {| RHF.regex :=
                               {| RHF.ranges := [("a", "z"); ("A", "Z"); ("0", "9")]%char;
                                  RHF.singles := ["_"; "-"]%char;
                                  RHF.min := 1; RHF.max := 64 |};
                             RHF.message :=
                               "Name must follow pattern: ^[a-zA-Z0-9_-]{1,64}$" |} |};
       isDisabled := false; widget := Input |} in
  let role :=
    {| field := "role";
       rules := {| RHF.required := Some "Role is required.";
                   RHF.pattern := None |};
       isDisabled := false; widget := Textarea |} in
  let backstory :=
    {| field := "backstory"; rules := RHF.no_rules;
       isDisabled := false; widget := Textarea |} in
  let model :=
    {| field := "model"; rules := RHF.no_rules; isDisabled := false;
       widget := ModelSelect (models q) (MemberOut.model (member p))
                             (selectedModelProvider s) |} in
  skillTools <- read_flag enableSkillTools memberConfig ;;
  uploadTools <- read_flag enableUploadTools memberConfig ;;
  interrupt <- read_flag enableInterrupt memberConfig ;;
  let controls :=
    [type; name; role; backstory; model]
    ++ when skillTools
         {| field := "skills"; rules := RHF.no_rules;
            isDisabled := negb skillTools;
            widget := SkillSelect skillOptions |}
    ++ when uploadTools
         {| field := "uploads"; rules := RHF.no_rules;
            isDisabled := negb uploadTools;
            widget := UploadSelect uploadOptions |}
    ++ when interrupt
         {| field := "interrupt"; rules := RHF.no_rules; isDisabled := false;
            widget := Checkbox |}
    ++ [ {| field := "temperature";
            rules := {| RHF.required := Some ""; RHF.pattern := None |};
            isDisabled := false;
            widget := Slider (or_zero (MemberUpdate.temperature
                                         (RHF.values (form s)))) |} ] in
  Js.Ok (ModalDialog (isOpen p) controls
    [ Save (RHF.isSubmitting (form s)
            || match mutation s with loading => true | _ => false end)
           (negb (RHF.isDirty (form s))
            || negb (RHF.isValid (registered controls) (form s)));
      Cancel ]).

(** The body of the component from [const memberConfig] on: the profile
    of the type the form currently holds, the option lists, and one of
    the two element trees by the type of the member. *)
Definition EditTeamMember (p : Props) (q : Queries) (s : Session) : Js.Exc View :=
  memberConfig <- memberConfig (RHF.watch_type (form s)) ;;
  skillOptions <- skillOptions (skills q) memberConfig ;;
  let uploadOptions := uploadOptions (uploads q) in
  if Js.endsWith (MemberOut.type (member p)) "bot"
  then inline_panel p q s memberConfig skillOptions uploadOptions
  else modal_dialog p q s memberConfig skillOptions uploadOptions.

(** A submit event on the form of a rendered view:
    [onSubmit={handleSubmit(onSubmit)}]. *)
Definition submit (p : Props) (v : View) (s : Session) : Session :=
  handleSubmit (registered (controls_of v)) (onSubmit p) s.

(** ** Events of a session *)

(** What can happen to a mounted component: the effect on
    [member.model] and [models] runs, the user picks a model, the form of
    the rendered view is submitted, the mutation settles, the user
    cancels. *)
Inductive Action : Type :=
| Effect (p : Props) (q : Queries)
| ModelSelected (q : Queries) (modelName : string)
| Submitted (p : Props) (v : View)
| Settled (p : Props) (answer : MemberOut.t + ApiError)
| Cancelled.

Definition step (a : Action) (s : Session) : Session :=
  match a with
  | Effect p q => effect_member_model p q s
  | ModelSelected q modelName => onModelSelect q modelName s
  | Submitted p v => submit p v s
  | Settled p answer => settle p answer s
  | Cancelled => onCancel s
  end.

Definition run (trace : list Action) (s : Session) : Session :=
  List.fold_left (fun s a => step a s) trace s.

(** The action looks a model up by name in the catalog it sees and finds
    [m]: the name is the one the user picked, or the model the member
    has stored. *)
Definition finds (a : Action) (m : Model) : Prop :=
  match a with
  | ModelSelected q modelName => find_model (models q) modelName = Some m
  | Effect p q =>
      exists modelName,
        MemberOut.model (member p) = Some modelName /\
        find_model (models q) modelName = Some m
  | _ => False
  end.

(** ** Vocabulary of the statements *)

(** The distinguished skill. *)
Definition is_ask_human (skill : Skill) : bool :=
  String.eqb (skill_name skill) "ask-human".

(** The filter callback of [skillOptions] under a profile that is
    there. *)
Definition kept_under (profile : MemberConfigs) (skill : Skill) : bool :=
  negb (is_ask_human skill) || enableHumanTool profile.

(** The rule on names in words: between 1 and 64 characters, each a
    letter, a digit, an underscore or a hyphen. *)
Definition name_char (c : ascii) : bool :=
  let n := nat_of_ascii c in
  (Nat.leb 97 n && Nat.leb n 122) || (Nat.leb 65 n && Nat.leb n 90)
  || (Nat.leb 48 n && Nat.leb n 57) || Nat.eqb n 95 || Nat.eqb n 45.

Definition name_matches (s : string) : bool :=
  Nat.leb 1 (String.length s) && Nat.leb (String.length s) 64
  && List.forallb name_char (list_ascii_of_string s).

(** A draft that breaks a local rule: the name is missing or does not
    match, the role is missing or empty, or there is no temperature. *)
Definition breaks_local_rule (d : MemberUpdate.t) : bool :=
  match MemberUpdate.name d with
  | Some s => negb (name_matches s)
  | None => true
  end
  || match MemberUpdate.role d with
     | Some s => String.eqb s ""
     | None => true
     end
  || match MemberUpdate.temperature d with
     | Some _ => false
     | None => true
     end.

(** The control of the field [type] in a view, if it has one. *)
Definition type_select (v : View) : option FormControl :=
  List.find (fun c => String.eqb (field c) "type") (controls_of v).

(** The user can change the type: the view has a type select and it is
    not disabled. *)
Definition type_select_enabled (v : View) : bool :=
  match type_select v with
  | Some c => negb (isDisabled c)
  | None => false
  end.

(** [updateMember] calls among some events. *)
Definition is_updateMember (e : Event) : bool :=
  match e with
  | updateMember _ _ _ => true
  | _ => false
  end.

Definition is_onClose (e : Event) : bool :=
  match e with
  | onClose => true
  | _ => false
  end.

(** ** Sample data *)

Definition search : Skill :=
  {| skill_id := 1; skill_name := "search"; skill_description := "" |}.
Definition ask_human : Skill :=
  {| skill_id := 2; skill_name := "ask-human"; skill_description := "" |}.

Definition gpt4o : Model :=
  {| ai_model_name := "gpt-4o";
     model_provider := {| provider_name := "openai" |} |}.
Definition glm4 : Model :=
  {| ai_model_name := "glm-4";
     model_provider := {| provider_name := "zhipuai" |} |}.

Definition catalogs : Queries :=
  {| skills := Some [search; ask_human];
     uploads := Some [];
     models := Some [gpt4o; glm4] |}.

Definition sample_member (type name : string) : MemberOut.t :=
  {| MemberOut.id := 7; MemberOut.belongs_to := 3;
     MemberOut.type := type; MemberOut.name := name;
     MemberOut.role := "Answer questions";
     MemberOut.backstory := None;
     MemberOut.model := Some "gpt-4o"; MemberOut.provider := Some "openai";
     MemberOut.temperature := Some 0.5%float;
     MemberOut.interrupt := Some false;
     MemberOut.skills := []; MemberOut.uploads := [] |}.

Definition sample_props (type name : string) : Props :=
  {| member := sample_member type name; teamId := 3; isOpen := true |}.

Definition worker_props : Props := sample_props "worker" "w1".

Definition duplicate_name : ApiError :=
  {| body := Some {| detail := Some "duplicate name" |} |}.

(** The session of [worker_props] after a submit of the untouched form. *)
Definition in_flight : Session :=
  mutate worker_props (RHF.values (form (mount worker_props)))
         (mount worker_props).

(** The rules the controls of the fields [name], [role] and [temperature]
    carry. *)
Definition name_regex : RHF.Regex :=
  {| RHF.ranges := [("a", "z"); ("A", "Z"); ("0", "9")]%char;
     RHF.singles := ["_"; "-"]%char;
     RHF.min := 1; RHF.max := 64 |}.

Definition name_rules : RHF.Rules :=
  {| RHF.required := Some "Name is required.";
     RHF.pattern :=
       Some {| RHF.regex := name_regex;
               RHF.message :=
                 "Name must follow pattern: ^[a-zA-Z0-9_-]{1,64}$" |} |}.

Definition role_rules : RHF.Rules :=
  {| RHF.required := Some "Role is required."; RHF.pattern := None |}.

Definition temperature_rules : RHF.Rules :=
  {| RHF.required := Some ""; RHF.pattern := None |}.

(** The condition of the [isDisabled] attribute of the type control. *)
Definition type_locked (type : string) : bool :=
  String.eqb type "root" || Js.startsWith type "freelancer"
  || Js.endsWith type "bot".

(** A form whose name the user has changed to [name]. *)
Definition edited_name (p : Props) (name : string) : Session :=
  {| form :=
       {| RHF.values :=
            {| MemberUpdate.id := MemberOut.id (member p);
               MemberUpdate.belongs_to := MemberOut.belongs_to (member p);
               MemberUpdate.type := MemberOut.type (member p);
               MemberUpdate.name := Some name;
               MemberUpdate.role := Some (MemberOut.role (member p));
               MemberUpdate.backstory := MemberOut.backstory (member p);
               MemberUpdate.model := MemberOut.model (member p);
               MemberUpdate.provider := MemberOut.provider (member p);
               MemberUpdate.temperature := MemberOut.temperature (member p);
               MemberUpdate.interrupt := MemberOut.interrupt (member p);
               MemberUpdate.skills := [];
               MemberUpdate.uploads := [] |};
          RHF.defaultValues := form_values (member p);
          RHF.isDirty := true;
          RHF.isSubmitting := false;
          RHF.errors := [] |};
     selectedModelProvider := "openai";
     mutation := idle;
     log := [] |}.

(** ** The render with its side effect *)

(** The error state of the three catalog queries, as the component
    destructures it from [useSkillsQuery], [useUploadsQuery] and
    [useModelQuery]: the flag [isError] and the [error] object, which is
    [null] while there is none. *)
Record QueryStatus : Type := {
  isErrorSkills : bool;
  errorSkills : option ApiError;
  isErrorUploads : bool;
  errorUploads : option ApiError;
  isErrorModel : bool;
  errorModel : option ApiError
}.

(** [a || b] on operands that are an object or [null]. *)
Definition or_else {A} (a b : option A) : option A :=
  match a with
  | Some _ => a
  | None => b
  end.

(** [if (isErrorSkills || isErrorUploads || isErrorModel) { ... }]
    The error is [errorSkills || errorUploads || errorModel]; reading
    [body] of it throws when all three are [null]. *)
Definition catalog_error_toast (st : QueryStatus) (s : Session)
  : Js.Exc Session :=
  if isErrorSkills st || isErrorUploads st || isErrorModel st then
    match or_else (or_else (errorSkills st) (errorUploads st)) (errorModel st) with
    | Some err =>
        Js.Ok (emit (showToast "Something went wrong."
                               (Js.template (errDetail err)) "error") s)
    | None => Js.Throw (Js.TypeError "Cannot read properties of null")
    end
  else Js.Ok s.

(** One run of the component body: the toast for a failed catalog, then
    the element tree. *)
Definition render (st : QueryStatus) (p : Props) (q : Queries) (s : Session)
  : Js.Exc (Session * View) :=
  s1 <- catalog_error_toast st s ;;
  v <- EditTeamMember p q s1 ;;
  Js.Ok (s1, v).

(** What react-query keeps true of a query: it is flagged as failed
    exactly while it holds an error. *)
Definition flags_match_errors (st : QueryStatus) : bool :=
  Bool.eqb (isErrorSkills st)
           (match errorSkills st with Some _ => true | None => false end)
  && Bool.eqb (isErrorUploads st)
              (match errorUploads st with Some _ => true | None => false end)
  && Bool.eqb (isErrorModel st)
              (match errorModel st with Some _ => true | None => false end).

(** The control of a field in a view, if the view has one. *)
Definition control_of (name : string) (v : View) : option FormControl :=
  List.find (fun c => String.eqb (field c) name) (controls_of v).

(** The toasts among some events. *)
Definition is_showToast (e : Event) : bool :=
  match e with
  | showToast _ _ _ => true
  | _ => false
  end.

(** ** More sample data *)

Definition no_errors : QueryStatus :=
  {| isErrorSkills := false; errorSkills := None;
     isErrorUploads := false; errorUploads := None;
     isErrorModel := false; errorModel := None |}.

Definition server_down : ApiError :=
  {| body := Some {| detail := Some "Service unavailable" |} |}.

Definition uploads_and_models_failed : QueryStatus :=
  {| isErrorSkills := false; errorSkills := None;
     isErrorUploads := true; errorUploads := Some duplicate_name;
     isErrorModel := true; errorModel := Some server_down |}.

(** A model name two providers offer. *)
Definition gpt4o_azure : Model :=
  {| ai_model_name := "gpt-4o";
     model_provider := {| provider_name := "azure" |} |}.

Definition two_providers : Queries :=
  {| skills := Some [search];
     uploads := Some [];
     models := Some [glm4; gpt4o_azure; gpt4o] |}.

Definition manual : Upload := {| upload_id := 11; upload_name := "manual.pdf" |}.

(** A member with a skill and an upload. *)
Definition equipped_member : MemberOut.t :=
  {| MemberOut.id := 9; MemberOut.belongs_to := 3;
     MemberOut.type := "worker"; MemberOut.name := "w2";
     MemberOut.role := "Search the web";
     MemberOut.backstory := None;
     MemberOut.model := Some "glm-4"; MemberOut.provider := Some "zhipuai";
     MemberOut.temperature := Some 0.5%float;
     MemberOut.interrupt := Some false;
     MemberOut.skills := [search]; MemberOut.uploads := [manual] |}.

(** The form of [p] after the user has picked [type] in the type
    select. *)
Definition retyped (p : Props) (type : string) : Session :=
  {| form :=
       {| RHF.values :=
            {| MemberUpdate.id := MemberOut.id (member p);
               MemberUpdate.belongs_to := MemberOut.belongs_to (member p);
               MemberUpdate.type := type;
               MemberUpdate.name := Some (MemberOut.name (member p));
               MemberUpdate.role := Some (MemberOut.role (member p));
               MemberUpdate.backstory := MemberOut.backstory (member p);
               MemberUpdate.model := MemberOut.model (member p);
               MemberUpdate.provider := MemberOut.provider (member p);
               MemberUpdate.temperature := MemberOut.temperature (member p);
               MemberUpdate.interrupt := MemberOut.interrupt (member p);
               MemberUpdate.skills := [];
               MemberUpdate.uploads := [] |};
          RHF.defaultValues := form_values (member p);
          RHF.isDirty := true;
          RHF.isSubmitting := false;
          RHF.errors := [] |};
     selectedModelProvider := "openai";
     mutation := idle;
     log := [] |}.

(** What the server returns for the worker after a save that renamed it
    and set the temperature to 0.7. *)
Definition saved_member : MemberOut.t :=
  {| MemberOut.id := 7; MemberOut.belongs_to := 3;
     MemberOut.type := "worker"; MemberOut.name := "w1-b";
     MemberOut.role := "Answer questions";
     MemberOut.backstory := None;
     MemberOut.model := Some "gpt-4o"; MemberOut.provider := Some "openai";
     MemberOut.temperature := Some 0.7%float;
     MemberOut.interrupt := Some false;
     MemberOut.skills := [search]; MemberOut.uploads := [manual] |}.

(** * Properties *)

(** ** Strings and the type tags *)

Lemma of_tag_tag (T : MemberTypes) : of_tag (tag T) = Some T.
Proof. destruct T; reflexivity. Qed.

Lemma of_tag_Some (key : string) (T : MemberTypes) :
  of_tag key = Some T -> key = tag T.
Proof.
  unfold of_tag. intros H.
  apply List.find_some in H. destruct H as [_ H].
  apply String.eqb_eq in H. now symmetry.
Qed.

Lemma of_tag_None (key : string) :
  (forall T, key <> tag T) -> of_tag key = None.
Proof.
  intros H. destruct (of_tag key) as [T|] eqn:E; [|reflexivity].
  apply of_tag_Some in E. now elim (H T).
Qed.

Lemma MemberTypes_eqb_eq (a b : MemberTypes) :
  MemberTypes_eqb a b = true <-> a = b.
Proof. destruct a, b; cbv; split; intros H; congruence. Qed.

Lemma all_member_types_complete (T : MemberTypes) : In T all_member_types.
Proof. destruct T; simpl; tauto. Qed.

Lemma index_configs_tag (T : MemberTypes) :
  index_configs (tag T) = Profile (ALLOWED_MEMBER_CONFIGS T).
Proof. unfold index_configs. now rewrite of_tag_tag. Qed.

(** ** The capability table *)

(** C1.  The table is defined at each of the 8 member types, and seven of
    them are in their own [selection]; [workflow] is not: its entry lists
    [ragbot] alone.  So a member type [T] is among its own allowed
    transitions exactly when [T] is not [workflow]. *)
Theorem selection_reflexive_except_workflow (T : MemberTypes) :
  In T all_member_types /\
  index_configs (tag T) = Profile (ALLOWED_MEMBER_CONFIGS T) /\
  List.existsb (MemberTypes_eqb T) (selection (ALLOWED_MEMBER_CONFIGS T))
    = negb (MemberTypes_eqb T workflow) /\
  selection (ALLOWED_MEMBER_CONFIGS workflow) = [ragbot] /\
  List.existsb (MemberTypes_eqb workflow)
               (selection (ALLOWED_MEMBER_CONFIGS workflow)) = false.
Proof.
  split; [apply all_member_types_complete|].
  split; [apply index_configs_tag|].
  split; [destruct T; reflexivity|].
  split; reflexivity.
Qed.

(** C4 fails as stated: indexing the table with a string that is no
    member type raises nothing; the result is the value [undefined]. *)
Lemma memberConfig_unknown_type_no_error :
  memberConfig "manager" = Js.Ok Undefined /\
  ~ (exists e, memberConfig "manager" = Js.Throw e).
Proof.
  split; [reflexivity|].
  intros [e H]. discriminate H.
Qed.

Lemma filter_throws {A} (f : A -> Js.Exc bool) (e0 : Js.Error) (l : list A) :
  (forall x e, f x = Js.Throw e -> e = e0) ->
  forall e, Js.filter f l = Js.Throw e -> e = e0.
Proof.
  intros Hf. induction l as [|x rest IH]; simpl; intros e H.
  - discriminate H.
  - destruct (f x) as [keep|e1] eqn:Ex; simpl in H.
    + destruct (Js.filter f rest) as [kept|e2]; simpl in H.
      * discriminate H.
      * injection H as <-. now apply IH.
    + injection H as <-. now apply (Hf x).
Qed.

Lemma skillOptions_Undefined_throws (sk : option (list Skill)) (e : Js.Error) :
  skillOptions sk Undefined = Js.Throw e ->
  e = Js.TypeError "Cannot read properties of undefined".
Proof.
  destruct sk as [data|]; simpl; [|discriminate].
  destruct (Js.filter _ data) as [kept|e1] eqn:E; simpl; [discriminate|].
  intros H. injection H as <-.
  revert E. apply filter_throws.
  intros x e2. destruct (negb _); [discriminate|].
  simpl. now intros [= <-].
Qed.

(** C4, amended.  The lookup returns the profile of the table for each of
    the 8 member types.  For every other string it raises no error and
    returns no profile: the result is [undefined], or the inherited member
    for a key that names a member of [Object.prototype].  With
    [undefined] the render fails with a [TypeError] as soon as a property
    of the missing profile is read. *)
Theorem memberConfig_defined_on_member_types_only :
  (forall T, memberConfig (tag T) = Js.Ok (Profile (ALLOWED_MEMBER_CONFIGS T))) /\
  (forall key, (forall T, key <> tag T) ->
     memberConfig key =
       Js.Ok (if List.existsb (String.eqb key) Js.objectPrototypeKeys
              then Inherited key else Undefined)) /\
  (forall p q s,
     index_configs (RHF.watch_type (form s)) = Undefined ->
     EditTeamMember p q s =
       Js.Throw (Js.TypeError "Cannot read properties of undefined")).
Proof.
  repeat split.
  - intros T. unfold memberConfig. now rewrite index_configs_tag.
  - intros key H. unfold memberConfig, index_configs.
    now rewrite (of_tag_None H).
  - intros p q s H. unfold EditTeamMember, memberConfig. simpl.
    rewrite H.
    destruct (skillOptions (skills q) Undefined) as [opts|e] eqn:E; simpl.
    + destruct (Js.endsWith _ _); reflexivity.
    + now rewrite (skillOptions_Undefined_throws _ E).
Qed.

Lemma memberConfig_defined_on_member_types_only_witness :
  (forall T, "manager" <> tag T) /\
  memberConfig "manager" = Js.Ok Undefined /\
  index_configs
    (RHF.watch_type (form (mount (sample_props "manager" "m1")))) = Undefined /\
  EditTeamMember (sample_props "manager" "m1") catalogs
                 (mount (sample_props "manager" "m1"))
  = Js.Throw (Js.TypeError "Cannot read properties of undefined").
Proof.
  assert (Hno : forall T, "manager" <> tag T) by (intros T; destruct T; discriminate).
  split; [exact Hno|].
  destruct memberConfig_defined_on_member_types_only as [_ [Hother Hrender]].
  split; [exact (Hother "manager" Hno)|].
  split; [reflexivity|].
  apply Hrender. reflexivity.
Defined.

(** ** The skill options *)

Lemma map_entity_skill_option (l : list Skill) :
  List.map (@entity Skill) (List.map skill_option l) = l.
Proof. induction l as [|x rest IH]; simpl; [|rewrite IH]; reflexivity. Qed.

Lemma map_entity_upload_option (l : list Upload) :
  List.map (@entity Upload) (List.map upload_option l) = l.
Proof. induction l as [|x rest IH]; simpl; [|rewrite IH]; reflexivity. Qed.

Section SkillOptions.

Variable profile : MemberConfigs.


Lemma filter_with_profile (data : list Skill) :
  Js.filter
    (fun skill =>
       if negb (String.eqb (skill_name skill) "ask-human")
       then Js.Ok true
       else read_flag enableHumanTool (Profile profile))
    data
  = Js.Ok (List.filter (kept_under profile) data).
Proof.
  induction data as [|skill rest IH]; [reflexivity|].
  cbn [Js.filter List.filter]. rewrite IH. unfold kept_under, is_ask_human.
  destruct (String.eqb (skill_name skill) "ask-human"); simpl;
    [destruct (enableHumanTool profile)|]; reflexivity.
Qed.

Lemma skillOptions_with_profile (catalog : list Skill) :
  skillOptions (Some catalog) (Profile profile)
  = Js.Ok (List.map skill_option (List.filter (kept_under profile) catalog)).
Proof.
  unfold skillOptions. now rewrite filter_with_profile.
Qed.

Lemma filter_ask_human_kept (catalog : list Skill) :
  List.filter is_ask_human (List.filter (kept_under profile) catalog)
  = if enableHumanTool profile then List.filter is_ask_human catalog else [].
Proof.
  induction catalog as [|skill rest IH].
  - now destruct (enableHumanTool profile).
  - simpl. unfold kept_under at 1.
    destruct (is_ask_human skill) eqn:E; simpl.
    + destruct (enableHumanTool profile); simpl; [|exact IH].
      rewrite E. now rewrite IH.
    + rewrite E. exact IH.
Qed.

Lemma filter_others_kept (catalog : list Skill) :
  List.filter (fun s => negb (is_ask_human s)) (List.filter (kept_under profile) catalog)
  = List.filter (fun s => negb (is_ask_human s)) catalog.
Proof.
  induction catalog as [|skill rest IH]; [reflexivity|].
  simpl. unfold kept_under at 1.
  destruct (is_ask_human skill) eqn:E; simpl.
  - destruct (enableHumanTool profile); simpl; [rewrite E; simpl|]; exact IH.
  - rewrite E. simpl. now rewrite IH.
Qed.

Lemma filter_map_entity (f : Skill -> bool) (l : list Skill) :
  List.filter (fun o => f (entity o)) (List.map skill_option l)
  = List.map skill_option (List.filter f l).
Proof.
  induction l as [|x rest IH]; [reflexivity|].
  simpl. destruct (f x); simpl; now rewrite IH.
Qed.

(** C2.  For every catalog and every profile the option list is computed
    without error, and
    - it is the catalog in catalog order, each skill spread into an option
      whose [label] is the name of that catalog skill and whose [value] is
      its id, without the skills named ask-human when [enableHumanTool] is
      off;
    - the options named ask-human are those of the catalog when
      [enableHumanTool] is on (one when the catalog has one), and none when
      it is off;
    - the options with another name are the options of all the catalog's
      skills with another name, in catalog order: every such skill of the
      catalog has its option, with its own name and id, in the list. *)
Theorem skillOptions_ask_human (catalog : list Skill) :
  exists options,
    skillOptions (Some catalog) (Profile profile) = Js.Ok options /\
    options =
      List.map
        (fun s => {| entity := s;
                     decoration := Some (skill_name s, skill_id s) |})
        (List.filter
           (fun s => negb (is_ask_human s) || enableHumanTool profile) catalog) /\
    List.map (@entity Skill) options =
      List.filter
        (fun s => negb (is_ask_human s) || enableHumanTool profile) catalog /\
    List.map (@label Skill) options =
      List.map (fun s => Some (skill_name s))
        (List.filter
           (fun s => negb (is_ask_human s) || enableHumanTool profile) catalog) /\
    List.map (@value Skill) options =
      List.map (fun s => Some (skill_id s))
        (List.filter
           (fun s => negb (is_ask_human s) || enableHumanTool profile) catalog) /\
    List.Forall
      (fun o => label o = Some (skill_name (entity o)) /\
                value o = Some (skill_id (entity o))) options /\
    List.filter (fun o => is_ask_human (entity o)) options =
      (if enableHumanTool profile
       then List.map
              (fun s => {| entity := s;
                           decoration := Some (skill_name s, skill_id s) |})
              (List.filter is_ask_human catalog)
       else []) /\
    List.length (List.filter (fun o => is_ask_human (entity o)) options) =
      (if enableHumanTool profile
       then List.length (List.filter is_ask_human catalog)
       else 0) /\
    List.filter (fun o => negb (is_ask_human (entity o))) options =
      List.map
        (fun s => {| entity := s;
                     decoration := Some (skill_name s, skill_id s) |})
        (List.filter (fun s => negb (is_ask_human s)) catalog) /\
    List.Forall
      (fun s =>
         is_ask_human s = true \/
         In {| entity := s; decoration := Some (skill_name s, skill_id s) |}
            options)
      catalog.
Proof.
  change (fun s : Skill =>
            {| entity := s; decoration := Some (skill_name s, skill_id s) |})
    with skill_option.
  exists (List.map skill_option (List.filter (kept_under profile) catalog)).
  split; [apply skillOptions_with_profile|].
  split; [reflexivity|].
  split; [apply map_entity_skill_option|].
  split; [now rewrite List.map_map|].
  split; [now rewrite List.map_map|].
  split.
  { apply List.Forall_forall. intros o Ho.
    apply List.in_map_iff in Ho. destruct Ho as [s [<- _]].
    split; reflexivity. }
  assert (Hask :
    List.filter (fun o => is_ask_human (entity o))
                (List.map skill_option (List.filter (kept_under profile) catalog)) =
    if enableHumanTool profile
    then List.map skill_option (List.filter is_ask_human catalog) else []).
  { rewrite filter_map_entity, filter_ask_human_kept.
    now destruct (enableHumanTool profile). }
  split; [exact Hask|].
  split.
  { rewrite Hask. destruct (enableHumanTool profile); [|reflexivity].
    apply List.length_map. }
  split.
  { rewrite (filter_map_entity (fun s => negb (is_ask_human s))).
    now rewrite filter_others_kept. }
  apply List.Forall_forall. intros s Hin.
  destruct (is_ask_human s) eqn:E; [now left|]. right.
  change {| entity := s; decoration := Some (skill_name s, skill_id s) |}
    with (skill_option s).
  apply List.in_map. apply List.filter_In. split; [exact Hin|].
  unfold kept_under. now rewrite E.
Qed.

(** Scenarios A and B of the specification: the catalog search, ask-human
    under the profiles of worker and of freelancer. *)
Example skillOptions_worker_and_freelancer :
  skillOptions (Some [search; ask_human])
               (Profile (ALLOWED_MEMBER_CONFIGS worker))
  = Js.Ok [ {| entity := search; decoration := Some ("search", 1%Z) |} ] /\
  skillOptions (Some [search; ask_human])
               (Profile (ALLOWED_MEMBER_CONFIGS freelancer))
  = Js.Ok [ {| entity := search; decoration := Some ("search", 1%Z) |};
            {| entity := ask_human; decoration := Some ("ask-human", 2%Z) |} ].
Proof. split; reflexivity. Qed.

End SkillOptions.

(** ** Model selection *)

Lemma find_model_found (catalog : option (list Model)) (modelName : string)
      (m : Model) :
  find_model catalog modelName = Some m ->
  ai_model_name m = modelName /\ exists data, catalog = Some data /\ In m data.
Proof.
  destruct catalog as [data|]; simpl; [|discriminate].
  intros H. apply List.find_some in H. destruct H as [Hin Heq].
  apply String.eqb_eq in Heq. split; [exact Heq|].
  now exists data.
Qed.

(** C3.  When the lookup finds a model, [onModelSelect] leaves a draft
    whose [model] is the selected name and whose [provider] is the
    provider of the model found, and nothing else of the draft changes;
    when the lookup finds nothing the session is returned as it was. *)
Theorem onModelSelect_atomic (q : Queries) (modelName : string) (s : Session) :
  (forall m,
     find_model (models q) modelName = Some m ->
     let d := RHF.values (form s) in
     let d' := RHF.values (form (onModelSelect q modelName s)) in
     MemberUpdate.model d' = Some modelName /\
     MemberUpdate.provider d' = Some (provider_name (model_provider m)) /\
     d' = MemberUpdate.set_provider
            (Some (provider_name (model_provider m)))
            (MemberUpdate.set_model (Some modelName) d) /\
     ai_model_name m = modelName) /\
  (find_model (models q) modelName = None ->
   onModelSelect q modelName s = s).
Proof.
  unfold onModelSelect. split.
  - intros m H. rewrite H. simpl.
    repeat split. now apply find_model_found in H.
  - intros H. now rewrite H.
Qed.

Lemma onModelSelect_atomic_witness :
  (MemberUpdate.model
     (RHF.values (form (onModelSelect catalogs "glm-4" (mount worker_props))))
   = Some "glm-4" /\
   MemberUpdate.provider
     (RHF.values (form (onModelSelect catalogs "glm-4" (mount worker_props))))
   = Some "zhipuai") /\
  onModelSelect catalogs "claude" (mount worker_props) = mount worker_props.
Proof.
  split.
  - destruct (onModelSelect_atomic catalogs "glm-4" (mount worker_props))
      as [H _].
    destruct (H glm4 eq_refl) as [Hm [Hp _]].
    split; [exact Hm | exact Hp].
  - destruct (onModelSelect_atomic catalogs "claude" (mount worker_props))
      as [_ H].
    apply H. reflexivity.
Defined.

(** ** Submission *)

(** C5.  When the mutation settles with an error whose body carries the
    detail [d], the form (values, default values, dirty state) is what it
    was, and what is called is one error toast with [d] as its text and
    the invalidation of the member list: [onClose] is not called and the
    REST client is not called again. *)
Theorem settle_error_keeps_draft (p : Props) (err : ApiError) (d : string)
        (s : Session) :
  errDetail err = Some d ->
  let s' := settle p (inr err) s in
  form s' = form s /\
  selectedModelProvider s' = selectedModelProvider s /\
  log s' = log s ++ [ showToast "Something went wrong." d "error";
                      invalidateQueries (teamId p) ] /\
  (exists new, log s' = log s ++ new /\
               List.existsb is_onClose new = false /\
               List.existsb is_updateMember new = false).
Proof.
  intros H. unfold settle, onSettled, onError, emit. simpl. rewrite H. simpl.
  rewrite <- List.app_assoc. simpl.
  repeat split.
  eexists. split; [reflexivity|]. split; reflexivity.
Qed.

Lemma settle_error_keeps_draft_witness :
  errDetail duplicate_name = Some "duplicate name" /\
  form (settle worker_props (inr duplicate_name) in_flight) = form in_flight /\
  log (settle worker_props (inr duplicate_name) in_flight) =
    [ updateMember 7 3 (form_values (sample_member "worker" "w1"));
      showToast "Something went wrong." "duplicate name" "error";
      invalidateQueries 3 ].
Proof.
  split; [reflexivity|].
  destruct (@settle_error_keeps_draft worker_props duplicate_name
              "duplicate name" in_flight eq_refl)
    as [Hform [_ [Hlog _]]].
  split; [exact Hform | exact Hlog].
Defined.

(** C6.  When the mutation settles with the member the server returned,
    that member becomes both the values and the committed default values
    of the form: every field of the snapshot is the field of the returned
    member, and its skills and uploads are the returned ones.  The form is
    not dirty and has no errors, and what is called is a success toast,
    then [onClose], then the invalidation of the member list. *)
Theorem settle_success_commits (p : Props) (data : MemberOut.t) (s : Session) :
  let s' := settle p (inl data) s in
  RHF.defaultValues (form s') = as_form_values data /\
  RHF.values (form s') = as_form_values data /\
  RHF.isDirty (form s') = false /\
  log s' = log s ++ [ showToast "Success!" "Team updated successfully." "success";
                      onClose;
                      invalidateQueries (teamId p) ] /\
  RHF.values (form s') = RHF.defaultValues (form s') /\
  MemberUpdate.id (RHF.defaultValues (form s')) = MemberOut.id data /\
  MemberUpdate.belongs_to (RHF.defaultValues (form s'))
    = MemberOut.belongs_to data /\
  MemberUpdate.type (RHF.defaultValues (form s')) = MemberOut.type data /\
  MemberUpdate.name (RHF.defaultValues (form s'))
    = Some (MemberOut.name data) /\
  MemberUpdate.role (RHF.defaultValues (form s'))
    = Some (MemberOut.role data) /\
  MemberUpdate.backstory (RHF.defaultValues (form s'))
    = MemberOut.backstory data /\
  MemberUpdate.model (RHF.defaultValues (form s')) = MemberOut.model data /\
  MemberUpdate.provider (RHF.defaultValues (form s'))
    = MemberOut.provider data /\
  MemberUpdate.temperature (RHF.defaultValues (form s'))
    = MemberOut.temperature data /\
  MemberUpdate.interrupt (RHF.defaultValues (form s'))
    = MemberOut.interrupt data /\
  List.map (@entity Skill) (MemberUpdate.skills (RHF.defaultValues (form s')))
    = MemberOut.skills data /\
  List.map (@entity Upload) (MemberUpdate.uploads (RHF.defaultValues (form s')))
    = MemberOut.uploads data /\
  RHF.errors (form s') = [] /\
  selectedModelProvider s' = selectedModelProvider s.
Proof.
  unfold settle, onSettled, onSuccess, emit. simpl.
  repeat rewrite <- List.app_assoc. simpl.
  rewrite !List.map_map. simpl. rewrite !List.map_id.
  repeat split.
Qed.

(** Scenario D of the specification: a dirty form, and the server returns
    the member with temperature 0.7. *)
Lemma settle_success_commits_witness :
  RHF.isDirty (form (edited_name worker_props "w1-b")) = true /\
  RHF.isDirty
    (form (settle worker_props (inl saved_member)
             (edited_name worker_props "w1-b"))) = false /\
  MemberUpdate.temperature
    (RHF.defaultValues
       (form (settle worker_props (inl saved_member)
                (edited_name worker_props "w1-b")))) = Some 0.7%float /\
  MemberUpdate.name
    (RHF.defaultValues
       (form (settle worker_props (inl saved_member)
                (edited_name worker_props "w1-b")))) = Some "w1-b" /\
  List.map (@entity Skill)
    (MemberUpdate.skills
       (RHF.defaultValues
          (form (settle worker_props (inl saved_member)
                   (edited_name worker_props "w1-b"))))) = [search] /\
  log (settle worker_props (inl saved_member)
         (edited_name worker_props "w1-b"))
  = [ showToast "Success!" "Team updated successfully." "success";
      onClose;
      invalidateQueries 3 ].
Proof.
  split; [reflexivity|].
  destruct (settle_success_commits worker_props saved_member
              (edited_name worker_props "w1-b"))
    as (_ & _ & Hdirty & Hlog & _ & _ & _ & _ & Hname & _ & _ & _ & _ &
        Htemp & _ & Hskills & _).
  split; [exact Hdirty|]. split; [exact Htemp|]. split; [exact Hname|].
  split; [exact Hskills | exact Hlog].
Defined.

(** ** The two views *)

(** With a profile, both element trees are built without error; the modal
    is the type control followed by the controls of the inline panel. *)
Lemma views_with_profile (p : Props) (q : Queries) (s : Session)
      (c : MemberConfigs) (so : list (Decorated Skill))
      (uo : list (Decorated Upload)) :
  exists cs saveLoading saveDisabled,
    inline_panel p q s (Profile c) so uo = Js.Ok (InlinePanel cs) /\
    modal_dialog p q s (Profile c) so uo =
      Js.Ok (ModalDialog (isOpen p)
               ({| field := "type"; rules := RHF.no_rules;
                   isDisabled := type_locked (MemberOut.type (member p));
                   widget := Select (selection c) |} :: cs)
               [Save saveLoading saveDisabled; Cancel]) /\
    List.find (fun c => String.eqb (field c) "type") cs = None /\
    registered cs =
      [("name", name_rules); ("role", role_rules);
       ("backstory", RHF.no_rules); ("model", RHF.no_rules)]
      ++ (if enableSkillTools c then [("skills", RHF.no_rules)] else [])
      ++ (if enableUploadTools c then [("uploads", RHF.no_rules)] else [])
      ++ (if enableInterrupt c then [("interrupt", RHF.no_rules)] else [])
      ++ [("temperature", temperature_rules)] /\
    saveDisabled =
      negb (RHF.isDirty (form s))
      || negb (RHF.isValid
                 (("type", RHF.no_rules) :: registered cs) (form s)).
Proof.
  unfold inline_panel, modal_dialog, read_flag, read_selection. simpl.
  destruct (enableSkillTools c), (enableUploadTools c), (enableInterrupt c);
    simpl; do 3 eexists; repeat split.
Qed.

(** A field without rules never has an error. *)
Lemma validate_no_rules (field : string) (fields : list (string * RHF.Rules))
      (values : MemberUpdate.t) :
  RHF.validate ((field, RHF.no_rules) :: fields) values
  = RHF.validate fields values.
Proof.
  simpl. unfold RHF.validateField. simpl.
  destruct (RHF.get values field); reflexivity.
Qed.

(** The render of a form that holds a member type. *)
Lemma render_with_profile (p : Props) (q : Queries) (s : Session)
      (c : MemberConfigs) :
  index_configs (RHF.watch_type (form s)) = Profile c ->
  exists so cs l d,
    skillOptions (skills q) (Profile c) = Js.Ok so /\
    inline_panel p q s (Profile c) so (uploadOptions (uploads q))
      = Js.Ok (InlinePanel cs) /\
    modal_dialog p q s (Profile c) so (uploadOptions (uploads q))
      = Js.Ok (ModalDialog (isOpen p)
                 ({| field := "type"; rules := RHF.no_rules;
                     isDisabled := type_locked (MemberOut.type (member p));
                     widget := Select (selection c) |} :: cs)
                 [Save l d; Cancel]) /\
    List.find (fun c => String.eqb (field c) "type") cs = None /\
    EditTeamMember p q s =
      Js.Ok (if Js.endsWith (MemberOut.type (member p)) "bot"
             then InlinePanel cs
             else ModalDialog (isOpen p)
                    ({| field := "type"; rules := RHF.no_rules;
                        isDisabled := type_locked (MemberOut.type (member p));
                        widget := Select (selection c) |} :: cs)
                    [Save l d; Cancel]).
Proof.
  intros H.
  assert (Hso : exists so, skillOptions (skills q) (Profile c) = Js.Ok so).
  { destruct (skills q) as [data|].
    - eexists. apply skillOptions_with_profile.
    - now exists []. }
  destruct Hso as [so Hso].
  destruct (views_with_profile p q s c so (uploadOptions (uploads q)))
    as [cs [l [d [Hi [Hm [Hf _]]]]]].
  exists so, cs, l, d.
  split; [exact Hso|]. split; [exact Hi|]. split; [exact Hm|].
  split; [exact Hf|].
  unfold EditTeamMember, memberConfig. simpl. rewrite H, Hso. simpl.
  destruct (Js.endsWith (MemberOut.type (member p)) "bot");
    [rewrite Hi | rewrite Hm]; reflexivity.
Qed.

(** C8.  Which of the two views is rendered is decided by
    [member.type.endsWith("bot")] alone: the inline panel when it holds,
    the modal with the buttons Save and Cancel otherwise.  The modal has
    the controls of the inline panel after its type control, with the same
    rules and the same capability gates, so validation gives the same
    errors on either. *)
Theorem view_by_type_suffix (p : Props) (q : Queries) (s : Session)
        (c : MemberConfigs) :
  index_configs (RHF.watch_type (form s)) = Profile c ->
  exists v so cs t sv,
    EditTeamMember p q s = Js.Ok v /\
    is_inline v = Js.endsWith (MemberOut.type (member p)) "bot" /\
    v = (if Js.endsWith (MemberOut.type (member p)) "bot"
         then InlinePanel cs
         else ModalDialog (isOpen p) (t :: cs) [sv; Cancel]) /\
    (exists l d, sv = Save l d) /\
    skillOptions (skills q) (Profile c) = Js.Ok so /\
    inline_panel p q s (Profile c) so (uploadOptions (uploads q))
      = Js.Ok (InlinePanel cs) /\
    modal_dialog p q s (Profile c) so (uploadOptions (uploads q))
      = Js.Ok (ModalDialog (isOpen p) (t :: cs) [sv; Cancel]) /\
    field t = "type" /\ rules t = RHF.no_rules /\
    (forall values,
       RHF.validate (registered (t :: cs)) values
       = RHF.validate (registered cs) values).
Proof.
  intros H.
  destruct (@render_with_profile p q s c H)
    as [so [cs [l [d [Hso [Hi [Hm [_ Hv]]]]]]]].
  set (t := {| field := "type"; rules := RHF.no_rules;
               isDisabled := type_locked (MemberOut.type (member p));
               widget := Select (selection c) |}) in *.
  exists (if Js.endsWith (MemberOut.type (member p)) "bot"
          then InlinePanel cs
          else ModalDialog (isOpen p) (t :: cs) [Save l d; Cancel]).
  exists so, cs, t, (Save l d).
  split; [exact Hv|].
  split; [now destruct (Js.endsWith (MemberOut.type (member p)) "bot")|].
  split; [reflexivity|].
  split; [now exists l, d|].
  split; [exact Hso|].
  split; [exact Hi|].
  split; [exact Hm|].
  split; [reflexivity|].
  split; [reflexivity|].
  intros values. apply validate_no_rules.
Qed.

Lemma view_by_type_suffix_witness :
  index_configs (RHF.watch_type (form (mount (sample_props "chatbot" "c1"))))
    = Profile (ALLOWED_MEMBER_CONFIGS chatbot) /\
  index_configs (RHF.watch_type (form (mount worker_props)))
    = Profile (ALLOWED_MEMBER_CONFIGS worker) /\
  (exists v, EditTeamMember (sample_props "chatbot" "c1") catalogs
               (mount (sample_props "chatbot" "c1")) = Js.Ok v /\
             is_inline v = true) /\
  (exists v, EditTeamMember worker_props catalogs (mount worker_props)
               = Js.Ok v /\
             is_inline v = false).
Proof.
  split; [reflexivity|]. split; [reflexivity|]. split.
  - destruct (@view_by_type_suffix (sample_props "chatbot" "c1") catalogs
                (mount (sample_props "chatbot" "c1"))
                (ALLOWED_MEMBER_CONFIGS chatbot) eq_refl)
      as [v [so [cs [t [sv [Hv [Hin _]]]]]]].
    exists v. split; [exact Hv | exact Hin].
  - destruct (@view_by_type_suffix worker_props catalogs (mount worker_props)
                (ALLOWED_MEMBER_CONFIGS worker) eq_refl)
      as [v [so [cs [t [sv [Hv [Hin _]]]]]]].
    exists v. split; [exact Hv | exact Hin].
Defined.

(** What every successful render yields: the inline panel for a type
    ending in bot, otherwise the modal of a form that holds a member
    type. *)
Lemma render_cases (p : Props) (q : Queries) (s : Session) (v : View) :
  EditTeamMember p q s = Js.Ok v ->
  (exists cs, v = InlinePanel cs /\
              In ("name", name_rules) (registered cs) /\
              In ("role", role_rules) (registered cs) /\
              In ("temperature", temperature_rules) (registered cs)) \/
  (exists c so uo,
     index_configs (RHF.watch_type (form s)) = Profile c /\
     modal_dialog p q s (Profile c) so uo = Js.Ok v).
Proof.
  unfold EditTeamMember, memberConfig. simpl.
  destruct (skillOptions (skills q) _) as [so|e]; simpl; [|discriminate].
  destruct (Js.endsWith (MemberOut.type (member p)) "bot").
  - intros H. left.
    destruct (index_configs (RHF.watch_type (form s))) as [c|k|].
    + destruct (views_with_profile p q s c so (uploadOptions (uploads q)))
        as [cs [l [d [Hi [_ [_ [Hr _]]]]]]].
      rewrite Hi in H. injection H as <-.
      exists cs. split; [reflexivity|]. rewrite Hr.
      repeat split; repeat (rewrite List.in_app_iff); simpl; tauto.
    + unfold inline_panel in H. simpl in H. injection H as <-.
      eexists. split; [reflexivity|]. simpl. tauto.
    + discriminate H.
  - intros H. right.
    destruct (index_configs (RHF.watch_type (form s))) as [c|k|];
      try discriminate H.
    now exists c, so, (uploadOptions (uploads q)).
Qed.

Lemma rules_of_view (p : Props) (q : Queries) (s : Session) (v : View) :
  EditTeamMember p q s = Js.Ok v ->
  In ("name", name_rules) (registered (controls_of v)) /\
  In ("role", role_rules) (registered (controls_of v)) /\
  In ("temperature", temperature_rules) (registered (controls_of v)).
Proof.
  intros H. apply render_cases in H.
  destruct H as [[cs [-> H]] | [c [so [uo [_ H]]]]]; [exact H|].
  destruct (views_with_profile p q s c so uo)
    as [cs [l [d [_ [Hm [_ [Hr _]]]]]]].
  rewrite Hm in H. injection H as <-.
  cbn [controls_of registered List.map]. fold (registered cs). rewrite Hr.
  repeat split; right; repeat (rewrite List.in_app_iff); simpl; tauto.
Qed.

Lemma save_button_of_view (p : Props) (q : Queries) (s : Session) (v : View)
      (l d : bool) :
  EditTeamMember p q s = Js.Ok v ->
  In (Save l d) (footer_of v) ->
  d = negb (RHF.isDirty (form s))
      || negb (RHF.isValid (registered (controls_of v)) (form s)).
Proof.
  intros H Hin. apply render_cases in H.
  destruct H as [[cs [-> _]] | [c [so [uo [_ H]]]]]; [contradiction|].
  destruct (views_with_profile p q s c so uo)
    as [cs [l' [d' [_ [Hm [_ [_ Hd]]]]]]].
  rewrite Hm in H. injection H as <-.
  simpl in Hin. destruct Hin as [Hin|[Hin|[]]]; [|discriminate Hin].
  injection Hin as <- <-. exact Hd.
Qed.

(** ** Validation *)

Lemma in_class_name_regex (c : ascii) :
  RHF.in_class name_regex c = name_char c.
Proof.
  destruct c as [[] [] [] [] [] [] [] []]; reflexivity.
Qed.

Lemma test_name_regex (s : string) :
  RHF.test name_regex s = name_matches s.
Proof.
  unfold RHF.test, name_matches. simpl.
  f_equal. induction (list_ascii_of_string s) as [|c rest IH]; [reflexivity|].
  cbn [List.forallb]. now rewrite in_class_name_regex, IH.
Qed.

Lemma validate_in (fields : list (string * RHF.Rules)) (values : MemberUpdate.t)
      (field : string) (rules : RHF.Rules) :
  In (field, rules) fields ->
  RHF.validateField rules (RHF.get values field) <> [] ->
  RHF.validate fields values <> [].
Proof.
  induction fields as [|[f r] rest IH]; simpl; [contradiction|].
  intros [Heq|Hin] Hbad.
  - injection Heq as -> ->.
    destruct (RHF.validateField rules (RHF.get values field));
      [now elim Hbad | discriminate].
  - destruct (RHF.validateField r (RHF.get values f)); [|discriminate].
    now apply IH.
Qed.

(** A draft that breaks a rule in words has a field whose registered
    rules report an error. *)
Lemma broken_rule_is_reported (d : MemberUpdate.t) :
  breaks_local_rule d = true ->
  RHF.validateField name_rules (RHF.get d "name") <> [] \/
  RHF.validateField role_rules (RHF.get d "role") <> [] \/
  RHF.validateField temperature_rules (RHF.get d "temperature") <> [].
Proof.
  unfold breaks_local_rule. intros H.
  apply Bool.orb_true_iff in H. destruct H as [H|H];
    [apply Bool.orb_true_iff in H; destruct H as [H|H]|].
  - left. change (RHF.get d "name") with
      (match MemberUpdate.name d with
       | Some s => RHF.Text s | None => RHF.Nullish end).
    destruct (MemberUpdate.name d) as [n|]; [|discriminate].
    unfold RHF.validateField. cbn [RHF.required RHF.pattern name_rules
      RHF.isEmpty RHF.isNullish RHF.regex RHF.message].
    rewrite test_name_regex, H.
    destruct (String.eqb n ""); simpl; discriminate.
  - right. left. change (RHF.get d "role") with
      (match MemberUpdate.role d with
       | Some s => RHF.Text s | None => RHF.Nullish end).
    destruct (MemberUpdate.role d) as [r|]; [|discriminate].
    unfold RHF.validateField. simpl. rewrite H. discriminate.
  - right. right. change (RHF.get d "temperature") with
      (match MemberUpdate.temperature d with
       | Some x => RHF.Number x | None => RHF.Nullish end).
    destruct (MemberUpdate.temperature d); [discriminate H|discriminate].
Qed.

(** C7.  On a rendered form whose draft breaks a local rule (name missing
    or not matching the pattern, role missing or empty, temperature
    absent) the form is not valid, a Save button is disabled, and a submit
    calls nothing: no [updateMember], the mutation is not started, the
    draft stays, and the errors are recorded. *)
Theorem invalid_draft_is_not_sent (p : Props) (q : Queries) (s : Session)
        (v : View) :
  EditTeamMember p q s = Js.Ok v ->
  breaks_local_rule (RHF.values (form s)) = true ->
  RHF.isValid (registered (controls_of v)) (form s) = false /\
  (forall l d, In (Save l d) (footer_of v) -> d = true) /\
  log (submit p v s) = log s /\
  mutation (submit p v s) = mutation s /\
  RHF.values (form (submit p v s)) = RHF.values (form s) /\
  RHF.errors (form (submit p v s)) <> [].
Proof.
  intros Hv Hbad.
  assert (Herr : RHF.validate (registered (controls_of v))
                              (RHF.values (form s)) <> []).
  { destruct (@rules_of_view p q s v Hv) as [Hn [Hr Ht]].
    destruct (@broken_rule_is_reported _ Hbad) as [H|[H|H]].
    - eapply validate_in; [exact Hn | exact H].
    - eapply validate_in; [exact Hr | exact H].
    - eapply validate_in; [exact Ht | exact H]. }
  assert (Hvalid : RHF.isValid (registered (controls_of v)) (form s) = false).
  { unfold RHF.isValid.
    destruct (RHF.validate _ _); [now elim Herr | reflexivity]. }
  split; [exact Hvalid|].
  split.
  { intros l d Hin. rewrite (@save_button_of_view p q s v l d Hv Hin), Hvalid.
    apply Bool.orb_true_r. }
  unfold submit, handleSubmit.
  destruct (RHF.validate _ _) as [|e errs]; [now elim Herr|].
  simpl. repeat split. discriminate.
Qed.

Lemma invalid_draft_is_not_sent_witness :
  breaks_local_rule (RHF.values (form (edited_name worker_props "bad name!")))
    = true /\
  (exists v,
     EditTeamMember worker_props catalogs (edited_name worker_props "bad name!")
       = Js.Ok v /\
     RHF.isValid (registered (controls_of v))
                 (form (edited_name worker_props "bad name!")) = false /\
     log (submit worker_props v (edited_name worker_props "bad name!")) = []).
Proof.
  split; [reflexivity|].
  eexists. split; [reflexivity|].
  match goal with
  | |- RHF.isValid (registered (controls_of ?v)) _ = _ /\ _ =>
      destruct (@invalid_draft_is_not_sent worker_props catalogs
                  (edited_name worker_props "bad name!") v
                  eq_refl eq_refl) as [Hvalid [_ [Hlog _]]]
  end.
  split; [exact Hvalid | exact Hlog].
Defined.

(** ** The type control *)

(** C9.  The type control of the modal carries
    [isDisabled = (type is root, or starts with freelancer, or ends with
    bot)] and offers the [selection] of the profile of the type the form
    currently holds.  In what is rendered, a type select the user can
    operate exists exactly when none of the three conditions holds; a
    member whose type ends in bot gets the inline panel, which has no type
    control at all. *)
Theorem type_select_locked (p : Props) (q : Queries) (s : Session)
        (c : MemberConfigs) :
  index_configs (RHF.watch_type (form s)) = Profile c ->
  (forall so uo, exists t rest footer,
     modal_dialog p q s (Profile c) so uo
       = Js.Ok (ModalDialog (isOpen p) (t :: rest) footer) /\
     field t = "type" /\
     isDisabled t =
       (String.eqb (MemberOut.type (member p)) "root"
        || Js.startsWith (MemberOut.type (member p)) "freelancer"
        || Js.endsWith (MemberOut.type (member p)) "bot") /\
     widget t = Select (selection c) /\
     List.find (fun c => String.eqb (field c) "type") rest = None) /\
  exists v,
    EditTeamMember p q s = Js.Ok v /\
    type_select_enabled v =
      negb (String.eqb (MemberOut.type (member p)) "root"
            || Js.startsWith (MemberOut.type (member p)) "freelancer"
            || Js.endsWith (MemberOut.type (member p)) "bot") /\
    (type_select v = None <->
     Js.endsWith (MemberOut.type (member p)) "bot" = true) /\
    (forall t, type_select v = Some t ->
       isDisabled t = type_locked (MemberOut.type (member p)) /\
       widget t = Select (selection c)).
Proof.
  intros H. split.
  - intros so uo.
    destruct (views_with_profile p q s c so uo)
      as [cs [l [d [_ [Hm [Hf _]]]]]].
    do 3 eexists. split; [exact Hm|]. repeat split. exact Hf.
  - destruct (@render_with_profile p q s c H)
      as [so [cs [l [d [_ [_ [_ [Hf Hv]]]]]]]].
    eexists. split; [exact Hv|].
    fold (type_locked (MemberOut.type (member p))).
    unfold type_select_enabled, type_select.
    destruct (Js.endsWith (MemberOut.type (member p)) "bot") eqn:Ebot.
    + cbn [controls_of]. rewrite Hf.
      split; [unfold type_locked; rewrite Ebot;
              now rewrite Bool.orb_true_r|].
      split; [tauto|]. discriminate.
    + cbn [controls_of List.find field String.eqb Ascii.eqb Bool.eqb].
      split; [reflexivity|].
      split; [split; discriminate|].
      intros t [= <-]. split; reflexivity.
Qed.

Lemma type_select_locked_witness :
  index_configs (RHF.watch_type (form (mount worker_props)))
    = Profile (ALLOWED_MEMBER_CONFIGS worker) /\
  exists v,
    EditTeamMember worker_props catalogs (mount worker_props) = Js.Ok v /\
    type_select_enabled v = true.
Proof.
  split; [reflexivity|].
  destruct (@type_select_locked worker_props catalogs (mount worker_props)
              (ALLOWED_MEMBER_CONFIGS worker) eq_refl)
    as [_ [v [Hv [He _]]]].
  exists v. split; [exact Hv | exact He].
Defined.

(** ** The selected model provider *)

Lemma step_provider (a : Action) (s : Session) :
  selectedModelProvider (step a s) = selectedModelProvider s \/
  exists m, finds a m /\
            selectedModelProvider (step a s) = provider_name (model_provider m).
Proof.
  destruct a as [p q | q modelName | p v | p answer | ]; simpl.
  - unfold effect_member_model.
    destruct (MemberOut.model (member p)) as [modelName|] eqn:Em; [|now left].
    destruct (String.eqb modelName ""); [now left|].
    destruct (find_model (models q) modelName) as [m|] eqn:Ef; [|now left].
    right. exists m. split; [|reflexivity]. now exists modelName.
  - unfold onModelSelect.
    destruct (find_model (models q) modelName) as [m|] eqn:Ef; [|now left].
    right. now exists m.
  - left. unfold submit, handleSubmit.
    destruct (RHF.validate _ _); reflexivity.
  - left. destruct answer; reflexivity.
  - now left.
Qed.

Lemma run_snoc (trace : list Action) (a : Action) (s : Session) :
  run (trace ++ [a]) s = step a (run trace s).
Proof. unfold run. now rewrite List.fold_left_app. Qed.

(** C10.  A mounted component has ["openai"] as its selected provider.
    An event changes it only by a lookup that finds a model in the
    fetched catalog, by the name the user picked or by the model stored
    on the member, and then to the provider of the model found.  So after
    any events the selected provider is ["openai"] or the provider of a
    model one of the lookups found. *)
Theorem selectedModelProvider_default (p : Props) :
  selectedModelProvider (mount p) = "openai" /\
  (forall a s,
     selectedModelProvider (step a s) <> selectedModelProvider s ->
     exists m q modelName,
       finds a m /\
       (a = ModelSelected q modelName \/
        exists p', a = Effect p' q /\
                   MemberOut.model (member p') = Some modelName) /\
       (exists data, models q = Some data /\ In m data) /\
       ai_model_name m = modelName /\
       selectedModelProvider (step a s) = provider_name (model_provider m)) /\
  (forall trace,
     (forall a m, In a trace -> ~ finds a m) ->
     selectedModelProvider (run trace (mount p)) = "openai") /\
  (forall trace,
     selectedModelProvider (run trace (mount p)) = "openai" \/
     exists a m, In a trace /\ finds a m /\
                 selectedModelProvider (run trace (mount p))
                 = provider_name (model_provider m)).
Proof.
  split; [reflexivity|].
  split.
  { intros a s Hneq.
    destruct (step_provider a s) as [Heq | [m [Hf Hm]]]; [now elim Hneq|].
    destruct a as [p' q | q modelName | | | ]; simpl in Hf; try contradiction.
    - destruct Hf as [modelName [Hmodel Hfind]].
      exists m, q, modelName.
      split; [now exists modelName|].
      split; [right; now exists p'|].
      destruct (find_model_found _ _ Hfind) as [Hname Hin].
      repeat split; assumption.
    - exists m, q, modelName.
      split; [exact Hf|].
      split; [now left|].
      destruct (find_model_found _ _ Hf) as [Hname Hin].
      repeat split; assumption. }
  assert (Hreach : forall trace,
    selectedModelProvider (run trace (mount p)) = "openai" \/
    exists a m, In a trace /\ finds a m /\
                selectedModelProvider (run trace (mount p))
                = provider_name (model_provider m)).
  { intros trace. induction trace as [|a trace IH] using List.rev_ind.
    - now left.
    - rewrite run_snoc.
      destruct (step_provider a (run trace (mount p)))
        as [Heq | [m [Hf Hm]]].
      + rewrite Heq. destruct IH as [IH | [a' [m [Hin [Hf Hm]]]]].
        * now left.
        * right. exists a', m. split; [|now split].
          apply List.in_or_app. now left.
      + right. exists a, m. split; [|now split].
        apply List.in_or_app. right. now left. }
  split; [|exact Hreach].
  intros trace Hnone.
  destruct (Hreach trace) as [H | [a [m [Hin [Hf _]]]]]; [exact H|].
  now elim (Hnone a m Hin).
Qed.

Lemma selectedModelProvider_default_witness :
  selectedModelProvider
    (step (ModelSelected catalogs "glm-4") (mount worker_props))
  <> selectedModelProvider (mount worker_props) /\
  exists m,
    In m [gpt4o; glm4] /\
    selectedModelProvider
      (step (ModelSelected catalogs "glm-4") (mount worker_props))
    = provider_name (model_provider m).
Proof.
  assert (Hneq : selectedModelProvider
                   (step (ModelSelected catalogs "glm-4") (mount worker_props))
                 <> selectedModelProvider (mount worker_props))
    by discriminate.
  split; [exact Hneq|].
  destruct (selectedModelProvider_default worker_props) as [_ [Hstep _]].
  destruct (Hstep _ _ Hneq)
    as [m [q [modelName [_ [Ha [[data [Hq Hin]] [_ Hp]]]]]]].
  exists m. split; [|exact Hp].
  destruct Ha as [Ha | [p' [Ha _]]]; [|discriminate Ha].
  injection Ha as <- <-. simpl in Hq. injection Hq as <-. exact Hin.
Defined.

(** * Further properties *)

(** ** Shape of the capability table *)

(** X1.  The allowed transitions are closed: a type [U] offered for a
    member of type [T] offers the same types as [T] does, so changing the
    type in the select does not change what the select offers. *)
Theorem selection_closed (T U : MemberTypes) :
  In U (selection (ALLOWED_MEMBER_CONFIGS T)) ->
  selection (ALLOWED_MEMBER_CONFIGS U) = selection (ALLOWED_MEMBER_CONFIGS T).
Proof.
  destruct T; simpl; intros H;
    repeat (destruct H as [<-|H]; [reflexivity|]); contradiction.
Qed.

Lemma selection_closed_witness :
  In leader (selection (ALLOWED_MEMBER_CONFIGS worker)) /\
  selection (ALLOWED_MEMBER_CONFIGS leader) = [worker; leader].
Proof.
  assert (H : In leader (selection (ALLOWED_MEMBER_CONFIGS worker)))
    by (simpl; tauto).
  split; [exact H|].
  exact (selection_closed worker leader H).
Defined.

(** X2.  The types whose type control is disabled ([root], those starting
    with freelancer, those ending in bot) offer themselves only; the types
    whose control is enabled are [leader], [worker] and [workflow]. *)
Theorem locked_types_offer_themselves (T : MemberTypes) :
  if type_locked (tag T)
  then selection (ALLOWED_MEMBER_CONFIGS T) = [T]
  else In T [leader; worker; workflow].
Proof. destruct T; simpl; tauto. Qed.

(** X3.  In every entry of the table the ask-human skill is allowed
    exactly where the interrupt checkbox is, only where the skills control
    is shown, and the skills control only where the uploads control is. *)
Theorem capability_flags_nested (T : MemberTypes) :
  enableHumanTool (ALLOWED_MEMBER_CONFIGS T)
    = enableInterrupt (ALLOWED_MEMBER_CONFIGS T) /\
  implb (enableHumanTool (ALLOWED_MEMBER_CONFIGS T))
        (enableSkillTools (ALLOWED_MEMBER_CONFIGS T)) = true /\
  implb (enableSkillTools (ALLOWED_MEMBER_CONFIGS T))
        (enableUploadTools (ALLOWED_MEMBER_CONFIGS T)) = true.
Proof. destruct T; repeat split. Qed.

(** ** Skill options without a profile *)

Lemma filter_without_profile (data : list Skill) :
  Js.filter
    (fun skill =>
       if negb (String.eqb (skill_name skill) "ask-human")
       then Js.Ok true
       else read_flag enableHumanTool Undefined)
    data
  = if List.existsb is_ask_human data
    then Js.Throw (Js.TypeError "Cannot read properties of undefined")
    else Js.Ok data.
Proof.
  induction data as [|skill rest IH]; [reflexivity|].
  cbn [Js.filter List.existsb]. rewrite IH.
  change (is_ask_human skill)
    with (String.eqb (skill_name skill) "ask-human").
  destruct (String.eqb (skill_name skill) "ask-human"); simpl;
    [reflexivity|].
  now destruct (List.existsb is_ask_human rest).
Qed.

Lemma filter_inherited (key : string) (data : list Skill) :
  Js.filter
    (fun skill =>
       if negb (String.eqb (skill_name skill) "ask-human")
       then Js.Ok true
       else read_flag enableHumanTool (Inherited key))
    data
  = Js.Ok (List.filter (fun s => negb (is_ask_human s)) data).
Proof.
  induction data as [|skill rest IH]; [reflexivity|].
  cbn [Js.filter List.filter]. rewrite IH.
  change (is_ask_human skill)
    with (String.eqb (skill_name skill) "ask-human").
  now destruct (String.eqb (skill_name skill) "ask-human").
Qed.

(** X4.  When the form holds a type the table does not know, the filter
    reads the missing profile only for a skill named ask-human: the option
    list is the whole catalog when no skill has that name, and the call
    throws a [TypeError] when one has.  A key inherited from
    [Object.prototype] counts as [enableHumanTool] off.  Without a fetched
    catalog the list is empty whatever the profile. *)
Theorem skillOptions_without_profile (data : list Skill) (key : string)
        (memberConfig : Indexed) :
  skillOptions (Some data) Undefined =
    (if List.existsb is_ask_human data
     then Js.Throw (Js.TypeError "Cannot read properties of undefined")
     else Js.Ok (List.map skill_option data)) /\
  skillOptions (Some data) (Inherited key) =
    Js.Ok (List.map skill_option
             (List.filter (fun s => negb (is_ask_human s)) data)) /\
  skillOptions None memberConfig = Js.Ok [].
Proof.
  split; [|split; [|reflexivity]].
  - unfold skillOptions. rewrite filter_without_profile.
    now destruct (List.existsb is_ask_human data).
  - unfold skillOptions. now rewrite filter_inherited.
Qed.

(** ** Capability gates of the rendered form *)

(** X5.  Which of the controls for skills, uploads and interrupt a render
    shows is decided by the profile of the type the form currently holds
    ([watch("type")]), not by the type of the member: each is there
    exactly when its flag is on.  The skills control offers the resolved
    skill options, the uploads control every upload of the catalog. *)
Theorem rendered_capability_controls (p : Props) (q : Queries) (s : Session)
        (c : MemberConfigs) :
  index_configs (RHF.watch_type (form s)) = Profile c ->
  exists v so,
    EditTeamMember p q s = Js.Ok v /\
    skillOptions (skills q) (Profile c) = Js.Ok so /\
    control_of "skills" v =
      (if enableSkillTools c
       then Some {| field := "skills"; rules := RHF.no_rules;
                    isDisabled := false; widget := SkillSelect so |}
       else None) /\
    control_of "uploads" v =
      (if enableUploadTools c
       then Some {| field := "uploads"; rules := RHF.no_rules;
                    isDisabled := false;
                    widget := UploadSelect (uploadOptions (uploads q)) |}
       else None) /\
    control_of "interrupt" v =
      (if enableInterrupt c
       then Some {| field := "interrupt"; rules := RHF.no_rules;
                    isDisabled := false; widget := Checkbox |}
       else None).
Proof.
  intros H.
  assert (Hso : exists so, skillOptions (skills q) (Profile c) = Js.Ok so).
  { destruct (skills q) as [data|].
    - eexists. apply skillOptions_with_profile.
    - now exists []. }
  destruct Hso as [so Hso].
  unfold EditTeamMember, memberConfig. simpl. rewrite H, Hso. simpl.
  unfold inline_panel, modal_dialog, read_flag, read_selection, control_of.
  destruct (Js.endsWith (MemberOut.type (member p)) "bot");
    destruct (enableSkillTools c), (enableUploadTools c), (enableInterrupt c);
    simpl; eexists; exists so; repeat split.
Qed.

Lemma rendered_capability_controls_witness :
  index_configs (RHF.watch_type (form (retyped worker_props "leader")))
    = Profile (ALLOWED_MEMBER_CONFIGS leader) /\
  exists v,
    EditTeamMember worker_props catalogs (retyped worker_props "leader")
      = Js.Ok v /\
    control_of "skills" v = None /\
    control_of "uploads" v = None.
Proof.
  split; [reflexivity|].
  destruct (@rendered_capability_controls worker_props catalogs
              (retyped worker_props "leader")
              (ALLOWED_MEMBER_CONFIGS leader) eq_refl)
    as [v [so [Hv [_ [Hs [Hu _]]]]]].
  exists v. split; [exact Hv|]. split; [exact Hs | exact Hu].
Defined.

(** ** Validity of a rendered form *)

Lemma validateField_no_rules (v : RHF.FieldValue) :
  RHF.validateField RHF.no_rules v = [].
Proof. now destruct v. Qed.

(** Only the rules of name, role and temperature count in a rendered
    form. *)
Lemma validate_of_view (p : Props) (q : Queries) (s : Session) (v : View)
      (values : MemberUpdate.t) :
  EditTeamMember p q s = Js.Ok v ->
  RHF.validate (registered (controls_of v)) values
  = RHF.validate [("name", name_rules); ("role", role_rules);
                  ("temperature", temperature_rules)] values.
Proof.
  unfold EditTeamMember, memberConfig. simpl.
  destruct (skillOptions (skills q) _) as [so|e]; simpl; [|discriminate].
  unfold inline_panel, modal_dialog, read_flag, read_selection.
  destruct (Js.endsWith (MemberOut.type (member p)) "bot");
    destruct (index_configs (RHF.watch_type (form s))) as [c|k|];
    simpl; try discriminate;
    try (destruct (enableSkillTools c), (enableUploadTools c),
                  (enableInterrupt c); simpl);
    intros [= <-];
    cbn [controls_of registered List.map RHF.validate field rules List.app when];
    rewrite ?validateField_no_rules; reflexivity.
Qed.

Lemma unbroken_rules_pass (d : MemberUpdate.t) :
  breaks_local_rule d = false ->
  RHF.validate [("name", name_rules); ("role", role_rules);
                ("temperature", temperature_rules)] d = [].
Proof.
  unfold breaks_local_rule. intros H.
  apply Bool.orb_false_iff in H. destruct H as [H Ht].
  apply Bool.orb_false_iff in H. destruct H as [Hn Hr].
  cbn [RHF.validate].
  change (RHF.get d "name") with
    (match MemberUpdate.name d with
     | Some s => RHF.Text s | None => RHF.Nullish end).
  change (RHF.get d "role") with
    (match MemberUpdate.role d with
     | Some s => RHF.Text s | None => RHF.Nullish end).
  change (RHF.get d "temperature") with
    (match MemberUpdate.temperature d with
     | Some x => RHF.Number x | None => RHF.Nullish end).
  destruct (MemberUpdate.name d) as [n|]; [|discriminate Hn].
  destruct (MemberUpdate.role d) as [r|]; [|discriminate Hr].
  destruct (MemberUpdate.temperature d) as [x|]; [|discriminate Ht].
  apply Bool.negb_false_iff in Hn.
  assert (Hne : String.eqb n "" = false).
  { destruct n; [discriminate Hn | reflexivity]. }
  unfold RHF.validateField.
  cbn [RHF.required RHF.pattern name_rules role_rules temperature_rules
       RHF.isEmpty RHF.isNullish RHF.regex RHF.message].
  rewrite test_name_regex, Hn, Hne, Hr. reflexivity.
Qed.

Lemma broken_rules_fail (d : MemberUpdate.t) :
  breaks_local_rule d = true ->
  RHF.validate [("name", name_rules); ("role", role_rules);
                ("temperature", temperature_rules)] d <> [].
Proof.
  intros H. destruct (@broken_rule_is_reported d H) as [Hf|[Hf|Hf]].
  - eapply validate_in; [|exact Hf]. simpl. tauto.
  - eapply validate_in; [|exact Hf]. simpl. tauto.
  - eapply validate_in; [|exact Hf]. simpl. tauto.
Qed.

Lemma isValid_of_view (p : Props) (q : Queries) (s : Session) (v : View) :
  EditTeamMember p q s = Js.Ok v ->
  RHF.isValid (registered (controls_of v)) (form s)
  = negb (breaks_local_rule (RHF.values (form s))).
Proof.
  intros Hv. unfold RHF.isValid. rewrite (@validate_of_view p q s v (RHF.values (form s)) Hv).
  destruct (breaks_local_rule (RHF.values (form s))) eqn:E.
  - apply broken_rules_fail in E.
    destruct (RHF.validate _ _); [now elim E | reflexivity].
  - now rewrite (@unbroken_rules_pass (RHF.values (form s)) E).
Qed.

Lemma save_button_state (p : Props) (q : Queries) (s : Session) (v : View)
      (l d : bool) :
  EditTeamMember p q s = Js.Ok v ->
  In (Save l d) (footer_of v) ->
  d = negb (RHF.isDirty (form s))
      || breaks_local_rule (RHF.values (form s)) /\
  l = RHF.isSubmitting (form s)
      || match mutation s with loading => true | _ => false end.
Proof.
  intros Hv Hin. split.
  - rewrite (@save_button_of_view p q s v l d Hv Hin).
    rewrite (@isValid_of_view p q s v Hv). now rewrite Bool.negb_involutive.
  - destruct (@render_cases p q s v Hv) as [[cs [-> _]] | [c [so [uo [_ H]]]]];
      [contradiction|].
    unfold modal_dialog, read_flag, read_selection in H. simpl in H.
    injection H as <-. simpl in Hin.
    destruct Hin as [Hin|[Hin|[]]]; [|discriminate Hin].
    now injection Hin as <- _.
Qed.

(** X6.  A rendered form is valid exactly when the name has 1 to 64
    letters, digits, underscores or hyphens, the role is not empty and a
    temperature is there; the other fields (type, backstory, model,
    skills, uploads, interrupt) never make it invalid.  A Save button is
    disabled exactly when the form is not dirty or breaks one of these
    rules, and shows as loading exactly while the form is submitting
    ([handleSubmit] runs) or the mutation is in flight. *)
Theorem rendered_form_valid_iff (p : Props) (q : Queries) (s : Session)
        (v : View) :
  EditTeamMember p q s = Js.Ok v ->
  RHF.isValid (registered (controls_of v)) (form s)
    = negb (breaks_local_rule (RHF.values (form s))) /\
  (forall l d, In (Save l d) (footer_of v) ->
     d = negb (RHF.isDirty (form s))
         || breaks_local_rule (RHF.values (form s)) /\
     l = RHF.isSubmitting (form s)
         || match mutation s with loading => true | _ => false end).
Proof.
  intros Hv. split; [exact (@isValid_of_view p q s v Hv)|].
  intros l d Hin. exact (@save_button_state p q s v l d Hv Hin).
Qed.

Lemma rendered_form_valid_iff_witness :
  (exists v,
     EditTeamMember worker_props catalogs (edited_name worker_props "w1-b")
       = Js.Ok v /\
     RHF.isValid (registered (controls_of v))
                 (form (edited_name worker_props "w1-b")) = true /\
     footer_of v = [Save false false; Cancel]) /\
  (exists v,
     EditTeamMember worker_props catalogs
       (with_form RHF.beginSubmit (edited_name worker_props "w1-b"))
       = Js.Ok v /\
     mutation (with_form RHF.beginSubmit (edited_name worker_props "w1-b"))
       = idle /\
     forall l d, In (Save l d) (footer_of v) -> l = true).
Proof.
  split.
  - eexists. split; [reflexivity|].
    match goal with
    | |- RHF.isValid (registered (controls_of ?v)) _ = _ /\ _ =>
        destruct (@rendered_form_valid_iff worker_props catalogs
                    (edited_name worker_props "w1-b") v eq_refl)
          as [Hvalid _]
    end.
    split; [exact Hvalid | reflexivity].
  - eexists. split; [reflexivity|]. split; [reflexivity|].
    intros l d Hin.
    match type of Hin with
    | In _ (footer_of ?v) =>
        destruct (@rendered_form_valid_iff worker_props catalogs
                    (with_form RHF.beginSubmit
                       (edited_name worker_props "w1-b")) v eq_refl)
          as [_ Hsave]
    end.
    destruct (Hsave l d Hin) as [_ Hl]. exact Hl.
Defined.

(** ** Submitting *)

Lemma submit_valid (p : Props) (q : Queries) (s : Session) (v : View) :
  EditTeamMember p q s = Js.Ok v ->
  breaks_local_rule (RHF.values (form s)) = false ->
  submit p v s =
    {| form := {| RHF.values := RHF.values (form s);
                  RHF.defaultValues := RHF.defaultValues (form s);
                  RHF.isDirty := RHF.isDirty (form s);
                  RHF.isSubmitting := false;
                  RHF.errors := [] |};
       selectedModelProvider := selectedModelProvider s;
       mutation := loading;
       log := log s ++ [updateMember (MemberOut.id (member p)) (teamId p)
                                     (RHF.values (form s))] |}.
Proof.
  intros Hv Hok. unfold submit, handleSubmit.
  change (RHF.values (form (with_form RHF.beginSubmit s)))
    with (RHF.values (form s)).
  rewrite (@validate_of_view p q s v (RHF.values (form s)) Hv).
  now rewrite (@unbroken_rules_pass (RHF.values (form s)) Hok).
Qed.

(** X7.  A submit of a rendered form whose draft breaks no rule calls the
    REST client once, with the id of the member, the team id and the form
    values as they are (the entries of skills and uploads keep their
    [label] and [value]); the mutation is in flight, the draft is
    untouched and the errors are cleared.  Whether the form is dirty does
    not matter. *)
Theorem valid_submit_sends_form (p : Props) (q : Queries) (s : Session)
        (v : View) :
  EditTeamMember p q s = Js.Ok v ->
  breaks_local_rule (RHF.values (form s)) = false ->
  log (submit p v s) =
    log s ++ [updateMember (MemberOut.id (member p)) (teamId p)
                           (RHF.values (form s))] /\
  mutation (submit p v s) = loading /\
  RHF.values (form (submit p v s)) = RHF.values (form s) /\
  RHF.defaultValues (form (submit p v s)) = RHF.defaultValues (form s) /\
  RHF.isDirty (form (submit p v s)) = RHF.isDirty (form s) /\
  RHF.errors (form (submit p v s)) = [].
Proof.
  intros Hv Hok. rewrite (@submit_valid p q s v Hv Hok). repeat split.
Qed.

Lemma valid_submit_sends_form_witness :
  exists v,
    EditTeamMember {| member := equipped_member; teamId := 3; isOpen := true |}
                   catalogs
                   (mount {| member := equipped_member; teamId := 3;
                             isOpen := true |}) = Js.Ok v /\
    log (submit {| member := equipped_member; teamId := 3; isOpen := true |} v
                (mount {| member := equipped_member; teamId := 3;
                          isOpen := true |}))
    = [updateMember 9 3 (form_values equipped_member)] /\
    List.map (@label Skill)
             (MemberUpdate.skills (form_values equipped_member))
    = [Some "search"].
Proof.
  eexists. split; [reflexivity|].
  match goal with
  | |- log (submit ?p ?v ?s) = _ /\ _ =>
      destruct (@valid_submit_sends_form p catalogs s v eq_refl eq_refl)
        as [Hlog _]
  end.
  split; [exact Hlog | reflexivity].
Defined.

(** X8.  After a failed save the draft can be sent again as it is: a
    second submit calls the REST client with the same body.  Between the
    two calls lie the error toast and the invalidation of the member
    list, and nothing else. *)
Theorem resubmit_after_failure (p : Props) (q q' : Queries) (s : Session)
        (v v' : View) (err : ApiError) :
  EditTeamMember p q s = Js.Ok v ->
  EditTeamMember p q' (settle p (inr err) (submit p v s)) = Js.Ok v' ->
  breaks_local_rule (RHF.values (form s)) = false ->
  log (submit p v' (settle p (inr err) (submit p v s))) =
    log s ++
    [ updateMember (MemberOut.id (member p)) (teamId p) (RHF.values (form s));
      showToast "Something went wrong." (Js.template (errDetail err)) "error";
      invalidateQueries (teamId p);
      updateMember (MemberOut.id (member p)) (teamId p) (RHF.values (form s)) ] /\
  mutation (submit p v' (settle p (inr err) (submit p v s))) = loading.
Proof.
  intros Hv Hv' Hok.
  rewrite (@submit_valid p q' _ v' Hv').
  - rewrite (@submit_valid p q s v Hv Hok). simpl.
    repeat rewrite <- List.app_assoc. simpl. split; reflexivity.
  - rewrite (@submit_valid p q s v Hv Hok). exact Hok.
Qed.

Lemma resubmit_after_failure_witness :
  exists v,
    EditTeamMember worker_props catalogs (mount worker_props) = Js.Ok v /\
    log (submit worker_props v
           (settle worker_props (inr duplicate_name)
              (submit worker_props v (mount worker_props)))) =
      [ updateMember 7 3 (form_values (sample_member "worker" "w1"));
        showToast "Something went wrong." "duplicate name" "error";
        invalidateQueries 3;
        updateMember 7 3 (form_values (sample_member "worker" "w1")) ].
Proof.
  eexists. split; [reflexivity|].
  match goal with
  | |- log (submit _ ?v _) = _ =>
      destruct (@resubmit_after_failure worker_props catalogs catalogs
                  (mount worker_props) v v duplicate_name
                  eq_refl eq_refl eq_refl) as [Hlog _]
  end.
  exact Hlog.
Defined.

(** X9.  A save that succeeds: from the submit of a draft that breaks no
    rule to the answer of the server, the calls are the request, the
    success toast, [onClose] and the invalidation of the member list; the
    form holds the returned member and is not dirty, so in any later
    render a Save button is disabled. *)
Theorem save_round_trip (p : Props) (q q' : Queries) (s : Session)
        (v v' : View) (data : MemberOut.t) :
  EditTeamMember p q s = Js.Ok v ->
  EditTeamMember p q' (settle p (inl data) (submit p v s)) = Js.Ok v' ->
  breaks_local_rule (RHF.values (form s)) = false ->
  log (settle p (inl data) (submit p v s)) =
    log s ++
    [ updateMember (MemberOut.id (member p)) (teamId p) (RHF.values (form s));
      showToast "Success!" "Team updated successfully." "success";
      onClose;
      invalidateQueries (teamId p) ] /\
  RHF.values (form (settle p (inl data) (submit p v s))) = as_form_values data /\
  RHF.isDirty (form (settle p (inl data) (submit p v s))) = false /\
  mutation (settle p (inl data) (submit p v s)) = success /\
  (forall l d, In (Save l d) (footer_of v') -> l = false /\ d = true).
Proof.
  intros Hv Hv' Hok.
  assert (Hsave := fun l d => @save_button_state p q' _ v' l d Hv').
  rewrite (@submit_valid p q s v Hv Hok) in *. simpl in *.
  repeat rewrite <- List.app_assoc. simpl.
  repeat split; try (now destruct (Hsave l d H)).
Qed.

Lemma save_round_trip_witness :
  exists v v',
    EditTeamMember worker_props catalogs (edited_name worker_props "w1-b")
      = Js.Ok v /\
    EditTeamMember worker_props catalogs
      (settle worker_props (inl (sample_member "worker" "w1-b"))
         (submit worker_props v (edited_name worker_props "w1-b")))
      = Js.Ok v' /\
    RHF.isDirty
      (form (settle worker_props (inl (sample_member "worker" "w1-b"))
               (submit worker_props v (edited_name worker_props "w1-b"))))
      = false /\
    footer_of v' = [Save false true; Cancel].
Proof.
  eexists. eexists. split; [reflexivity|]. split; [reflexivity|].
  match goal with
  | |- RHF.isDirty (form (settle _ _ (submit _ ?v _))) = _ /\ footer_of ?v' = _ =>
      destruct (@save_round_trip worker_props catalogs catalogs
                  (edited_name worker_props "w1-b") v v'
                  (sample_member "worker" "w1-b") eq_refl eq_refl eq_refl)
        as [_ [_ [Hdirty _]]]
  end.
  split; [exact Hdirty | reflexivity].
Defined.

(** ** The committed snapshot and cancelling *)




(** X11.  Cancel discards the draft and closes: the values go back to the
    committed snapshot, the form is not dirty, [onClose] is the only
    call.  It does not put the selected provider back: after a model was
    picked and the edit cancelled, the draft holds the committed model and
    provider while the provider shown by the model select is still the
    one of the model that was picked. *)
Theorem cancel_keeps_selected_provider (q : Queries) (modelName : string)
        (m : Model) (s : Session) :
  find_model (models q) modelName = Some m ->
  RHF.values (form (onCancel (onModelSelect q modelName s)))
    = RHF.defaultValues (form s) /\
  RHF.defaultValues (form (onCancel (onModelSelect q modelName s)))
    = RHF.defaultValues (form s) /\
  RHF.isDirty (form (onCancel (onModelSelect q modelName s))) = false /\
  log (onCancel (onModelSelect q modelName s)) = log s ++ [onClose] /\
  selectedModelProvider (onCancel (onModelSelect q modelName s))
    = provider_name (model_provider m).
Proof.
  intros H. unfold onModelSelect. rewrite H. repeat split.
Qed.

Lemma cancel_keeps_selected_provider_witness :
  MemberUpdate.provider
    (RHF.values (form (onCancel (onModelSelect catalogs "glm-4"
                                   (mount worker_props)))))
  = Some "openai" /\
  selectedModelProvider
    (onCancel (onModelSelect catalogs "glm-4" (mount worker_props)))
  = "zhipuai".
Proof.
  destruct (@cancel_keeps_selected_provider catalogs "glm-4" glm4
              (mount worker_props) eq_refl) as [Hv [_ [_ [_ Hp]]]].
  split; [now rewrite Hv | exact Hp].
Defined.

(** X12.  Cancel does not call off a save in flight: the mutation stays
    as it is, and when the answer arrives it is applied all the same:
    the form takes the returned member and [onClose] is called a second
    time. *)
Theorem cancel_does_not_abort_save (p : Props) (data : MemberOut.t)
        (s : Session) :
  mutation (onCancel s) = mutation s /\
  RHF.values (form (settle p (inl data) (onCancel s))) = as_form_values data /\
  RHF.defaultValues (form (settle p (inl data) (onCancel s)))
    = as_form_values data /\
  log (settle p (inl data) (onCancel s)) =
    log s ++ [ onClose;
               showToast "Success!" "Team updated successfully." "success";
               onClose;
               invalidateQueries (teamId p) ].
Proof.
  unfold settle, onSettled, onSuccess, onCancel, emit. simpl.
  repeat rewrite <- List.app_assoc. simpl. repeat split.
Qed.

(** ** Selecting models *)

(** X13.  Of two model selections in a row the later one that is found
    decides: picking [n2] after [n1] gives the session that picking [n2]
    alone gives, and picking a name the catalog does not have keeps what
    [n1] gave.  In particular picking the same model twice is picking it
    once. *)
Theorem onModelSelect_last_found_wins (q : Queries) (n1 n2 : string)
        (s : Session) :
  onModelSelect q n2 (onModelSelect q n1 s) =
    match find_model (models q) n2 with
    | Some _ => onModelSelect q n2 s
    | None => onModelSelect q n1 s
    end /\
  onModelSelect q n1 (onModelSelect q n1 s) = onModelSelect q n1 s.
Proof.
  unfold onModelSelect.
  destruct (find_model (models q) n2) as [m2|],
           (find_model (models q) n1) as [m1|]; split; reflexivity.
Qed.

Lemma find_first_match (before after : list Model) (m : Model) :
  (forall m', In m' before -> ai_model_name m' <> ai_model_name m) ->
  find_model (Some (before ++ m :: after)) (ai_model_name m) = Some m.
Proof.
  intros H. simpl. induction before as [|m' rest IH]; simpl.
  - now rewrite String.eqb_refl.
  - destruct (String.eqb (ai_model_name m') (ai_model_name m)) eqn:E.
    + apply String.eqb_eq in E. elim (H m'); [now left | exact E].
    + apply IH. intros m'' Hin. apply H. now right.
Qed.

(** X14.  When several models of the catalog have the selected name, the
    first of them in catalog order gives the provider; models after it,
    with the same name or not, have no influence. *)
Theorem first_model_of_name_decides (q : Queries) (before after : list Model)
        (m : Model) (s : Session) :
  models q = Some (before ++ m :: after) ->
  (forall m', In m' before -> ai_model_name m' <> ai_model_name m) ->
  MemberUpdate.provider
    (RHF.values (form (onModelSelect q (ai_model_name m) s)))
    = Some (provider_name (model_provider m)) /\
  MemberUpdate.model
    (RHF.values (form (onModelSelect q (ai_model_name m) s)))
    = Some (ai_model_name m) /\
  selectedModelProvider (onModelSelect q (ai_model_name m) s)
    = provider_name (model_provider m).
Proof.
  intros Hq Hfirst. unfold onModelSelect.
  rewrite Hq, (@find_first_match before after m Hfirst).
  repeat split.
Qed.

Lemma first_model_of_name_decides_witness :
  MemberUpdate.provider
    (RHF.values (form (onModelSelect two_providers "gpt-4o"
                         (mount worker_props))))
  = Some "azure" /\
  selectedModelProvider (onModelSelect two_providers "gpt-4o"
                           (mount worker_props))
  = "azure".
Proof.
  assert (Hfirst : forall m', In m' [glm4] ->
                              ai_model_name m' <> ai_model_name gpt4o_azure).
  { intros m' [<-|[]]. discriminate. }
  destruct (@first_model_of_name_decides two_providers [glm4] [gpt4o]
              gpt4o_azure (mount worker_props) eq_refl Hfirst)
    as [Hp [_ Hs]].
  split; [exact Hp | exact Hs].
Defined.

(** X15.  The effect on [member.model] touches nothing but the selected
    provider: form, mutation and calls stay.  For a stored model name
    that is not empty it leaves the provider that selecting this name
    would leave; for a missing or empty name it does nothing, even when
    the catalog has a model with the empty name. *)
Theorem effect_follows_stored_model (p : Props) (q : Queries) (s : Session) :
  form (effect_member_model p q s) = form s /\
  mutation (effect_member_model p q s) = mutation s /\
  log (effect_member_model p q s) = log s /\
  selectedModelProvider (effect_member_model p q s) =
    match MemberOut.model (member p) with
    | Some modelName =>
        if String.eqb modelName "" then selectedModelProvider s
        else selectedModelProvider (onModelSelect q modelName s)
    | None => selectedModelProvider s
    end.
Proof.
  unfold effect_member_model, onModelSelect.
  destruct (MemberOut.model (member p)) as [n|]; [|repeat split].
  destruct (String.eqb n ""); [repeat split|].
  destruct (find_model (models q) n); repeat split.
Qed.

(** ** Failed catalog queries *)

Lemma EditTeamMember_emit (p : Props) (q : Queries) (e : Event) (s : Session) :
  EditTeamMember p q (emit e s) = EditTeamMember p q s.
Proof. reflexivity. Qed.

(** X16.  With queries flagged as failed exactly while they hold an
    error, a render shows at most one toast for them: none when no query
    has failed, otherwise one with the detail of the first failed query
    in the order skills, uploads, models; the errors of the later ones
    are not shown.  The toast step neither throws nor touches the form. *)
Theorem catalog_error_toast_first_wins (st : QueryStatus) (s : Session) :
  flags_match_errors st = true ->
  exists s1,
    catalog_error_toast st s = Js.Ok s1 /\
    form s1 = form s /\
    selectedModelProvider s1 = selectedModelProvider s /\
    log s1 =
      log s ++
      match errorSkills st, errorUploads st, errorModel st with
      | Some e, _, _ | None, Some e, _ | None, None, Some e =>
          [showToast "Something went wrong." (Js.template (errDetail e)) "error"]
      | None, None, None => []
      end.
Proof.
  unfold flags_match_errors, catalog_error_toast. intros H.
  apply Bool.andb_true_iff in H. destruct H as [H Hm].
  apply Bool.andb_true_iff in H. destruct H as [Hs Hu].
  apply Bool.eqb_prop in Hs, Hu, Hm. rewrite Hs, Hu, Hm.
  destruct (errorSkills st), (errorUploads st), (errorModel st); simpl;
    eexists; repeat split; now rewrite ?List.app_nil_r.
Qed.

Lemma catalog_error_toast_first_wins_witness :
  flags_match_errors uploads_and_models_failed = true /\
  exists s1,
    catalog_error_toast uploads_and_models_failed (mount worker_props)
      = Js.Ok s1 /\
    log s1 = [showToast "Something went wrong." "duplicate name" "error"].
Proof.
  split; [reflexivity|].
  destruct (@catalog_error_toast_first_wins uploads_and_models_failed
              (mount worker_props) eq_refl) as [s1 [H1 [_ [_ Hlog]]]].
  exists s1. split; [exact H1 | exact Hlog].
Defined.

(** X17.  A failed or pending catalog does not break the form.  When the
    form holds a member type, a render succeeds whatever the state of the
    queries: it yields the view the element tree alone gives, and a
    control whose catalog is not there has no options. *)
Theorem render_survives_missing_catalogs (st : QueryStatus) (p : Props)
        (q : Queries) (s : Session) (c : MemberConfigs) :
  flags_match_errors st = true ->
  index_configs (RHF.watch_type (form s)) = Profile c ->
  exists s1 v,
    render st p q s = Js.Ok (s1, v) /\
    EditTeamMember p q s = Js.Ok v /\
    form s1 = form s /\
    (skills q = None ->
     control_of "skills" v =
       if enableSkillTools c
       then Some {| field := "skills"; rules := RHF.no_rules;
                    isDisabled := false; widget := SkillSelect [] |}
       else None) /\
    (uploads q = None ->
     control_of "uploads" v =
       if enableUploadTools c
       then Some {| field := "uploads"; rules := RHF.no_rules;
                    isDisabled := false; widget := UploadSelect [] |}
       else None).
Proof.
  intros Hst Hc.
  assert (Hso : exists so, skillOptions (skills q) (Profile c) = Js.Ok so /\
                           (skills q = None -> so = [])).
  { destruct (skills q) as [data|].
    - eexists. split; [apply skillOptions_with_profile | discriminate].
    - exists []. now split. }
  destruct Hso as [so [Hso Hempty]].
  assert (Hv : exists v,
    EditTeamMember p q s = Js.Ok v /\
    control_of "skills" v =
      (if enableSkillTools c
       then Some {| field := "skills"; rules := RHF.no_rules;
                    isDisabled := false; widget := SkillSelect so |}
       else None) /\
    control_of "uploads" v =
      (if enableUploadTools c
       then Some {| field := "uploads"; rules := RHF.no_rules;
                    isDisabled := false;
                    widget := UploadSelect (uploadOptions (uploads q)) |}
       else None)).
  { unfold EditTeamMember, memberConfig. simpl. rewrite Hc, Hso. simpl.
    unfold inline_panel, modal_dialog, read_flag, read_selection, control_of.
    destruct (Js.endsWith (MemberOut.type (member p)) "bot");
      destruct (enableSkillTools c), (enableUploadTools c),
               (enableInterrupt c);
      simpl; eexists; repeat split. }
  destruct Hv as [v [Hv [Hs Hu]]].
  unfold render, flags_match_errors, catalog_error_toast in *.
  apply Bool.andb_true_iff in Hst. destruct Hst as [Hst Hm].
  apply Bool.andb_true_iff in Hst. destruct Hst as [Hsk Hup].
  apply Bool.eqb_prop in Hsk, Hup, Hm. rewrite Hsk, Hup, Hm.
  destruct (errorSkills st), (errorUploads st), (errorModel st); simpl;
    rewrite ?EditTeamMember_emit, Hv; simpl;
    eexists; exists v; (split; [reflexivity|]); (split; [reflexivity|]);
    (split; [reflexivity|]);
    (split; [intros Hn; rewrite Hs, (Hempty Hn); reflexivity
            |intros Hn; rewrite Hu, Hn; reflexivity]).
Qed.

Lemma render_survives_missing_catalogs_witness :
  flags_match_errors uploads_and_models_failed = true /\
  index_configs (RHF.watch_type (form (mount worker_props)))
    = Profile (ALLOWED_MEMBER_CONFIGS worker) /\
  exists s1 v,
    render uploads_and_models_failed worker_props
           {| skills := Some [search]; uploads := None; models := None |}
           (mount worker_props) = Js.Ok (s1, v) /\
    control_of "uploads" v =
      Some {| field := "uploads"; rules := RHF.no_rules;
              isDisabled := false; widget := UploadSelect [] |}.
Proof.
  split; [reflexivity|]. split; [reflexivity|].
  destruct (@render_survives_missing_catalogs uploads_and_models_failed
              worker_props
              {| skills := Some [search]; uploads := None; models := None |}
              (mount worker_props) (ALLOWED_MEMBER_CONFIGS worker)
              eq_refl eq_refl)
    as [s1 [v [Hr [_ [_ [_ Hu]]]]]].
  exists s1, v. split; [exact Hr|]. exact (Hu eq_refl).
Defined.

(** ** Opening the form and what a save leaves in it *)

(** X18.  A form just opened on a member whose type the table knows is
    pristine: its values are its committed snapshot, the capability
    profile is the one of the member's type, and a Save button is
    disabled and not loading. *)
Theorem freshly_opened_form (p : Props) (q : Queries) (c : MemberConfigs) :
  index_configs (MemberOut.type (member p)) = Profile c ->
  exists v,
    EditTeamMember p q (mount p) = Js.Ok v /\
    RHF.values (form (mount p)) = RHF.defaultValues (form (mount p)) /\
    index_configs (RHF.watch_type (form (mount p))) = Profile c /\
    (forall l d, In (Save l d) (footer_of v) -> l = false /\ d = true).
Proof.
  intros H.
  destruct (@render_with_profile p q (mount p) c H)
    as [so [cs [l [d [_ [_ [_ [_ Hv]]]]]]]].
  eexists. split; [exact Hv|]. split; [reflexivity|]. split; [exact H|].
  intros l' d' Hin.
  destruct (@save_button_state p q (mount p) _ l' d' Hv Hin) as [Hd Hl].
  split; [exact Hl | exact Hd].
Qed.

Lemma freshly_opened_form_witness :
  index_configs (MemberOut.type (member worker_props))
    = Profile (ALLOWED_MEMBER_CONFIGS worker) /\
  exists v,
    EditTeamMember worker_props catalogs (mount worker_props) = Js.Ok v /\
    footer_of v = [Save false true; Cancel].
Proof.
  split; [reflexivity|].
  destruct (@freshly_opened_form worker_props catalogs
              (ALLOWED_MEMBER_CONFIGS worker) eq_refl) as [v [Hv _]].
  exists v. split; [exact Hv|].
  injection Hv as <-. reflexivity.
Defined.

(** X19.  The values a form is seeded with keep the member: every scalar
    field is the member's, stripping the multi-select entries of skills
    and uploads down to their entities gives the member's skills and
    uploads back, in order, and every entry of either carries the name as
    [label] and the id as [value].  The option lists keep the catalogs in
    the same way; the upload options are the whole catalog whatever the
    profile. *)
Theorem seeded_entries_keep_member (member : MemberOut.t)
        (catalog : list Upload) :
  List.map (@entity Skill) (MemberUpdate.skills (form_values member))
    = MemberOut.skills member /\
  List.map (@entity Upload) (MemberUpdate.uploads (form_values member))
    = MemberOut.uploads member /\
  List.map (@label Skill) (MemberUpdate.skills (form_values member))
    = List.map (fun s => Some (skill_name s)) (MemberOut.skills member) /\
  List.map (@value Skill) (MemberUpdate.skills (form_values member))
    = List.map (fun s => Some (skill_id s)) (MemberOut.skills member) /\
  List.map (@entity Upload) (uploadOptions (Some catalog)) = catalog /\
  List.map (@label Upload) (uploadOptions (Some catalog))
    = List.map (fun u => Some (upload_name u)) catalog /\
  List.map (@value Upload) (uploadOptions (Some catalog))
    = List.map (fun u => Some (upload_id u)) catalog /\
  List.map (@label Upload) (MemberUpdate.uploads (form_values member))
    = List.map (fun u => Some (upload_name u)) (MemberOut.uploads member) /\
  List.map (@value Upload) (MemberUpdate.uploads (form_values member))
    = List.map (fun u => Some (upload_id u)) (MemberOut.uploads member) /\
  MemberUpdate.id (form_values member) = MemberOut.id member /\
  MemberUpdate.belongs_to (form_values member) = MemberOut.belongs_to member /\
  MemberUpdate.type (form_values member) = MemberOut.type member /\
  MemberUpdate.name (form_values member) = Some (MemberOut.name member) /\
  MemberUpdate.role (form_values member) = Some (MemberOut.role member) /\
  MemberUpdate.backstory (form_values member) = MemberOut.backstory member /\
  MemberUpdate.model (form_values member) = MemberOut.model member /\
  MemberUpdate.provider (form_values member) = MemberOut.provider member /\
  MemberUpdate.temperature (form_values member)
    = MemberOut.temperature member /\
  MemberUpdate.interrupt (form_values member) = MemberOut.interrupt member.
Proof.
  simpl. rewrite !map_entity_skill_option, !map_entity_upload_option.
  rewrite !List.map_map. repeat split.
Qed.

(** X20.  A successful save resets the form to the response as it is: the
    entries of skills and uploads are the returned skills and uploads, in
    order, without [label] and [value].  So the values after the save are
    the values a form opened on the returned member would be seeded with
    exactly when that member has neither skills nor uploads. *)
Theorem reset_entries_are_undecorated (p : Props) (data : MemberOut.t)
        (s : Session) :
  List.map (@entity Skill)
    (MemberUpdate.skills (RHF.values (form (settle p (inl data) s))))
    = MemberOut.skills data /\
  List.map (@decoration Skill)
    (MemberUpdate.skills (RHF.values (form (settle p (inl data) s))))
    = List.map (fun _ => None) (MemberOut.skills data) /\
  List.map (@decoration Upload)
    (MemberUpdate.uploads (RHF.values (form (settle p (inl data) s))))
    = List.map (fun _ => None) (MemberOut.uploads data) /\
  (RHF.values (form (settle p (inl data) s)) = form_values data <->
   MemberOut.skills data = [] /\ MemberOut.uploads data = []) /\
  List.map (@entity Upload)
    (MemberUpdate.uploads (RHF.values (form (settle p (inl data) s))))
    = MemberOut.uploads data /\
  List.map (@label Skill)
    (MemberUpdate.skills (RHF.values (form (settle p (inl data) s))))
    = List.map (fun _ => None) (MemberOut.skills data) /\
  List.map (@label Upload)
    (MemberUpdate.uploads (RHF.values (form (settle p (inl data) s))))
    = List.map (fun _ => None) (MemberOut.uploads data).
Proof.
  simpl. rewrite !List.map_map. simpl. rewrite !List.map_id.
  split; [reflexivity|]. split; [reflexivity|]. split; [reflexivity|].
  split; [|repeat split].
  unfold as_form_values, form_values. split.
  - intros H. injection H as Hs Hu.
    destruct (MemberOut.skills data); [|discriminate Hs].
    destruct (MemberOut.uploads data); [|discriminate Hu].
    now split.
  - intros [-> ->]. reflexivity.
Qed.

Lemma reset_entries_are_undecorated_witness :
  RHF.values (form (settle worker_props (inl equipped_member) in_flight))
    <> form_values equipped_member /\
  RHF.values (form (settle worker_props
                      (inl (sample_member "worker" "w1")) in_flight))
    = form_values (sample_member "worker" "w1").
Proof.
  split.
  - intros H.
    destruct (reset_entries_are_undecorated worker_props equipped_member
                in_flight) as (_ & _ & _ & [Hiff _] & _).
    destruct (Hiff H) as [Hs _]. discriminate Hs.
  - destruct (reset_entries_are_undecorated worker_props
                (sample_member "worker" "w1") in_flight)
      as (_ & _ & _ & [_ Hiff] & _).
    apply Hiff. split; reflexivity.
Defined.

(** ** Calls of the REST client *)

(** X21.  Every event only adds calls to those made before, and the REST
    client is called by nothing but a submit whose form passes the rules
    of its registered fields, and then once, with the values of the form:
    the effect, a model selection, a settled mutation and a cancel never
    send a request. *)
Theorem only_a_valid_submit_sends (a : Action) (s : Session) :
  exists new,
    log (step a s) = log s ++ new /\
    (List.existsb is_updateMember new = true ->
     exists p v,
       a = Submitted p v /\
       RHF.validate (registered (controls_of v)) (RHF.values (form s)) = [] /\
       new = [updateMember (MemberOut.id (member p)) (teamId p)
                           (RHF.values (form s))]).
Proof.
  destruct a as [p q | q modelName | p v | p [data|err] | ]; simpl.
  - exists []. rewrite List.app_nil_r. split; [|discriminate].
    unfold effect_member_model.
    destruct (MemberOut.model (member p)) as [n|]; [|reflexivity].
    destruct (String.eqb n ""); [reflexivity|].
    now destruct (find_model (models q) n).
  - exists []. rewrite List.app_nil_r. split; [|discriminate].
    unfold onModelSelect. now destruct (find_model (models q) modelName).
  - unfold submit, handleSubmit.
    change (RHF.values (form (with_form RHF.beginSubmit s)))
      with (RHF.values (form s)).
    destruct (RHF.validate (registered (controls_of v)) (RHF.values (form s)))
      as [|e errs] eqn:E.
    + eexists. split; [reflexivity|]. intros _. now exists p, v.
    + exists []. rewrite List.app_nil_r. split; [reflexivity | discriminate].
  - eexists. unfold onSettled, onSuccess, emit. simpl.
    repeat rewrite <- List.app_assoc. split; [reflexivity | discriminate].
  - eexists. unfold onSettled, onError, emit. simpl.
    repeat rewrite <- List.app_assoc. split; [reflexivity | discriminate].
  - eexists. split; [reflexivity | discriminate].
Qed.

Lemma only_a_valid_submit_sends_witness :
  exists v,
    EditTeamMember worker_props catalogs (mount worker_props) = Js.Ok v /\
    RHF.validate (registered (controls_of v))
                 (RHF.values (form (mount worker_props))) = [].
Proof.
  eexists. split; [reflexivity|].
  match goal with
  | |- RHF.validate (registered (controls_of ?v)) _ = _ =>
      destruct (only_a_valid_submit_sends (Submitted worker_props v)
                  (mount worker_props)) as [new [Hlog Hsend]];
      assert (Hnew : new = [updateMember 7 3
                              (RHF.values (form (mount worker_props)))])
        by (apply (List.app_inv_head (log (mount worker_props)));
            rewrite <- Hlog; reflexivity);
      rewrite Hnew in Hsend;
      destruct (Hsend eq_refl) as [p' [v' [Ha [Hvalid _]]]];
      injection Ha as <- <-; exact Hvalid
  end.
Defined.
